(** * mp-api: retrieval and decoding of band structures and densities of states

    A shallow embedding of [src/mp_api/routes/electronic_structure.py]:
    the two-hop lookup (material id -> task id -> stored object) of
    [BandStructureRester] and [DosRester], and the decode chain
    base64 -> zlib -> msgpack -> MontyDecoder that turns the stored
    string into a pymatgen object.

    Python values are an inductive type, exceptions are the left summand
    of a sum, and the two REST calls are recorded in a trace so that
    statements can speak about which requests were issued. *)

From Stdlib Require Import ZArith NArith Ascii String List Lia.
From Stdlib Require Strings.Byte.
From stdpp Require Import gmap strings list fin_maps pretty sorting.

Set Warnings "-register-all,-clear-no-such-hyp".

Local Open Scope string_scope.
Local Open Scope Z_scope.

(** ** Python values *)

(** The JSON-like values that travel through the client: the [.dict()]
    image of a pydantic document, the body of a REST response, and the
    output of [msgpack.unpackb(..., raw=False)].  A float is kept as its
    IEEE-754 binary64 bit pattern. *)
Inductive pyval : Type :=
  | PNone
  | PBool (b : bool)
  | PInt (z : Z)
  | PFloat (bits : Z)
  | PStr (s : string)
  | PList (l : list pyval)
  | PDict (d : gmap string pyval).

(** A subscript: [x["key"]] or [x[0]]. *)
Inductive pykey : Type :=
  | KStr (s : string)
  | KInt (i : Z).

(** The exceptions that can leave the methods under study. *)
Inductive exn : Type :=
  | MPRestError (msg : string)
  | KeyError (key : pykey)
  | IndexError (msg : string)
  | TypeError (msg : string)
  | ValueError (msg : string)
  | BinasciiError (msg : string)      (* binascii.Error, a ValueError subclass *)
  | LibraryError (origin msg : string). (* zlib.error, msgpack, monty, transport *)

Abbreviation Raise e := (inl e) (only parsing).
Abbreviation Return v := (inr v) (only parsing).

(** [bool(x)]. *)
Definition truthy (x : pyval) : bool :=
  match x with
  | PNone => false
  | PBool b => b
  | PInt z => negb (z =? 0)
  | PFloat bits => negb ((bits =? 0) || (bits =? 2 ^ 63))
  | PStr s => negb (String.eqb s "")
  | PList l => match l with [] => false | _ :: _ => true end
  | PDict d => negb (bool_decide (size d = 0%nat))
  end.

(** [x is not None]. *)
Definition is_not_None (x : pyval) : bool :=
  match x with PNone => false | _ => true end.

(** [d.get(k, None)] on a dict. *)
Definition dict_get (d : gmap string pyval) (k : string) : pyval :=
  default PNone (d !! k).

(** [type(x).__name__]. *)
Definition type_name (x : pyval) : string :=
  match x with
  | PNone => "NoneType" | PBool _ => "bool" | PInt _ => "int"
  | PFloat _ => "float" | PStr _ => "str" | PList _ => "list"
  | PDict _ => "dict"
  end.

(** Sequence indexing with Python's negative indices. *)
Definition seq_index {A} (l : list A) (i : Z) : option A :=
  let n := Z.of_nat (length l) in
  let j := if i <? 0 then i + n else i in
  if (0 <=? j) && (j <? n) then l !! Z.to_nat j else None.

(** [x[k]]. *)
Definition py_getitem (x : pyval) (k : pykey) : exn + pyval :=
  match x, k with
  | PDict d, KStr s =>
      match d !! s with Some v => Return v | None => Raise (KeyError k) end
  | PDict _, KInt _ => Raise (KeyError k)
  | PList l, KInt i =>
      match seq_index l i with
      | Some v => Return v
      | None => Raise (IndexError "list index out of range")
      end
  | PList _, KStr _ =>
      Raise (TypeError "list indices must be integers or slices, not str")
  | PStr s, KInt i =>
      match seq_index (list_ascii_of_string s) i with
      | Some c => Return (PStr (String c EmptyString))
      | None => Raise (IndexError "string index out of range")
      end
  | PStr _, KStr _ => Raise (TypeError "string indices must be integers")
  | _, _ =>
      Raise (TypeError ("'" +:+ type_name x +:+ "' object is not subscriptable"))
  end.

(** ** Documents *)

(** Modelled from the spec: [ElectronicStructureDoc] is declared in
    [emmet.core], outside these sources.  The spec's material document has
    a sub-document per property, [bandstructure] and [dos], each of which
    may be null; the methods read only these two and turn each into a dict
    with [.dict()], so a sub-document is kept as that dict. *)
Record ElectronicStructureDoc : Type := {
  bandstructure : option (gmap string pyval);
  dos : option (gmap string pyval)
}.

Definition opt_dict (o : option (gmap string pyval)) : pyval :=
  match o with Some d => PDict d | None => PNone end.

(** [doc.dict()] on the whole document. *)
Definition doc_dict (doc : ElectronicStructureDoc) : gmap string pyval :=
  {[ "bandstructure" := opt_dict (bandstructure doc);
     "dos" := opt_dict (dos doc) ]}.

(** ** Requests and the call monad *)

Inductive event : Type :=
  | EvGetDataById (document_id : string) (fields : list string)
  | EvQueryResource (criteria : gmap string pyval) (suburl : string)
      (use_document_model : bool) (num_chunks chunk_size : Z).

(** A call yields the requests it issued, in order, and either an
    exception or a value. *)
Definition M (A : Type) : Type := list event * (exn + A).

Definition ret {A} (a : A) : M A := ([], Return a).
Definition raise {A} (e : exn) : M A := ([], Raise e).
Definition lift {A} (r : exn + A) : M A := ([], r).
Definition bind {A B} (m : M A) (f : A -> M B) : M B :=
  match m with
  | (t, Raise e) => (t, Raise e)
  | (t, Return a) => let '(t', r) := f a in ((t ++ t')%list, r)
  end.

#[global] Instance M_ret : MRet M := @ret.
#[global] Instance M_bind : MBind M := fun A B f m => bind m f.

Definition requests {A} (m : M A) : list event := fst m.
Definition outcome {A} (m : M A) : exn + A := snd m.

(** ** base64 *)

(** [base64.b64decode(s, validate=True)] and [base64.b64encode] of the
    Python standard library, which the client calls on the stored string.
    With [validate=True] the library first requires the whole input to
    match [[A-Za-z0-9+/]*={0,2}] and then hands it to
    [binascii.a2b_base64]; on inputs of that shape the latter decodes
    every group of four characters into three bytes and accepts a final
    group of two or three characters only when the padding completes it.
    Pad signs beyond what the last group needs, within the two that the
    pattern allows, are passed over.  This is the library of the Python
    versions up to 3.10, the ones the package was written for; later
    versions of [binascii] refuse part of the surplus padding as well. *)
Module Base64.

Definition alphabet : list ascii :=
  list_ascii_of_string
    "ABCDEFGHIJKLMNOPQRSTUVWXYZabcdefghijklmnopqrstuvwxyz0123456789+/".

Definition pad : ascii := "="%char.

Definition char_of_sextet (n : N) : ascii :=
  nth (N.to_nat n) alphabet pad.

Fixpoint index_of (c : ascii) (l : list ascii) (i : N) : option N :=
  match l with
  | [] => None
  | d :: l' => if Ascii.eqb c d then Some i else index_of c l' (N.succ i)
  end.

Definition sextet_of_char (c : ascii) : option N := index_of c alphabet 0%N.

Definition byte_of (n : N) : Byte.byte :=
  default Byte.x00 (Byte.of_N (n mod 256)%N).

(** The 24-bit group of three bytes, and of four sextets. *)
Definition group_of_bytes (b0 b1 b2 : Byte.byte) : N :=
  (65536 * Byte.to_N b0 + 256 * Byte.to_N b1 + Byte.to_N b2)%N.

Definition group_of_sextets (s0 s1 s2 s3 : N) : N :=
  (262144 * s0 + 4096 * s1 + 64 * s2 + s3)%N.

Definition sextet (g : N) (i : N) : N :=
  ((g / 2 ^ (6 * (3 - i))) mod 64)%N.

Definition octet (g : N) (i : N) : Byte.byte :=
  byte_of (g / 2 ^ (8 * (2 - i)))%N.

(** [base64.b64encode] on bytes, as a list of characters. *)
Fixpoint b64encode_chars (bs : list Byte.byte) : list ascii :=
  match bs with
  | [] => []
  | [b0] =>
      let g := group_of_bytes b0 Byte.x00 Byte.x00 in
      [char_of_sextet (sextet g 0); char_of_sextet (sextet g 1); pad; pad]
  | [b0; b1] =>
      let g := group_of_bytes b0 b1 Byte.x00 in
      [char_of_sextet (sextet g 0); char_of_sextet (sextet g 1);
       char_of_sextet (sextet g 2); pad]
  | b0 :: b1 :: b2 :: rest =>
      let g := group_of_bytes b0 b1 b2 in
      char_of_sextet (sextet g 0) :: char_of_sextet (sextet g 1) ::
      char_of_sextet (sextet g 2) :: char_of_sextet (sextet g 3) ::
      b64encode_chars rest
  end.

Definition b64encode (bs : list Byte.byte) : string :=
  string_of_list_ascii (b64encode_chars bs).

(** The longest prefix of alphabet characters, as sextets, and what
    follows it. *)
Fixpoint scan (cs : list ascii) : list N * list ascii :=
  match cs with
  | [] => ([], [])
  | c :: cs' =>
      match sextet_of_char c with
      | Some n => let '(sx, rest) := scan cs' in (n :: sx, rest)
      | None => ([], cs)
      end
  end.

(** What may follow the alphabet characters: [={0,2}]. *)
Definition pads_ok (rest : list ascii) : bool :=
  match rest with
  | [] => true
  | [p] => Ascii.eqb p pad
  | [p; q] => Ascii.eqb p pad && Ascii.eqb q pad
  | _ => false
  end.

(** [binascii.a2b_base64] on [count] data characters followed by
    [npads] pad characters. *)
Fixpoint a2b_base64 (sx : list N) (npads : nat) (count : nat)
  : exn + list Byte.byte :=
  match sx with
  | [] => Return []
  | [_] =>
      Raise (BinasciiError
               ("Invalid base64-encoded string: number of data characters ("
                +:+ pretty count +:+
                ") cannot be 1 more than a multiple of 4"))
  | [s0; s1] =>
      if (2 <=? npads)%nat
      then Return [octet (group_of_sextets s0 s1 0 0) 0]
      else Raise (BinasciiError "Incorrect padding")
  | [s0; s1; s2] =>
      if (1 <=? npads)%nat
      then let g := group_of_sextets s0 s1 s2 0 in
           Return [octet g 0; octet g 1]
      else Raise (BinasciiError "Incorrect padding")
  | s0 :: s1 :: s2 :: s3 :: rest =>
      match a2b_base64 rest npads count with
      | Raise e => Raise e
      | Return bs =>
          let g := group_of_sextets s0 s1 s2 s3 in
          Return (octet g 0 :: octet g 1 :: octet g 2 :: bs)
      end
  end.

Definition is_7bit (c : ascii) : bool := (N_of_ascii c <? 128)%N.

(** [base64.b64decode(x, validate=True)]. *)
Definition b64decode_validate (x : pyval) : exn + list Byte.byte :=
  match x with
  | PStr s =>
      let cs := list_ascii_of_string s in
      if forallb is_7bit cs then
        let '(sx, rest) := scan cs in
        if pads_ok rest
        then a2b_base64 sx (length rest) (length sx)
        else Raise (BinasciiError "Non-base64 digit found")
      else
        Raise (ValueError "string argument should contain only ASCII characters")
  | _ =>
      Raise (TypeError
               ("argument should be a bytes-like object or ASCII string, not '"
                +:+ type_name x +:+ "'"))
  end.

End Base64.

(** *** Malformed inputs of the base64 stage *)

(** A character that is neither in the alphabet nor the pad sign. *)
Definition has_invalid_char (s : string) : Prop :=
  exists c, In c (list_ascii_of_string s) /\
            Base64.sextet_of_char c = None /\ c <> Base64.pad.

(** The input is alphabet characters followed by pad signs only: [body]
    are the data characters and [npads] counts the pad signs. *)
Definition padded (s : string) (body : list ascii) (npads : nat) : Prop :=
  list_ascii_of_string s = (body ++ repeat Base64.pad npads)%list /\
  Forall (fun c => is_Some (Base64.sextet_of_char c)) body.

(** The padding that an encoder writes (RFC 4648): none after complete
    groups of four, two pad signs after a last group of two characters,
    one after a last group of three.  A last group of one character has
    no padding that is right. *)
Definition canonical_padding (ndata npads : nat) : Prop :=
  (ndata mod 4 = 0 /\ npads = 0)%nat \/
  (ndata mod 4 = 2 /\ npads = 2)%nat \/
  (ndata mod 4 = 3 /\ npads = 1)%nat.

(** Incorrect padding: the input is data characters followed by pad
    signs, and the pad signs are not the ones an encoder writes.  This
    covers padding that is missing or too short, a last group of one
    character, and pad signs in surplus, as in "QUJD=", "QUJ==" or "=". *)
Definition incorrect_padding (s : string) : Prop :=
  exists body npads,
    padded s body npads /\ ~ canonical_padding (length body) npads.

(** Incorrect padding of the kind the library refuses: more than two pad
    signs, or a last group of one, two or three characters that the pad
    signs do not fill up to four. *)
Definition refused_padding (s : string) : Prop :=
  exists body npads,
    padded s body npads /\
    (2 < npads \/ length body mod 4 = 1 \/
     (length body mod 4 <> 0 /\ length body mod 4 + npads < 4))%nat.

(** Incorrect padding of the kind the library passes over: at most two
    pad signs, and more of them than the last group needs. *)
Definition surplus_padding (s : string) : Prop :=
  exists body npads,
    padded s body npads /\ (npads <= 2)%nat /\
    ((length body mod 4 = 0 /\ 1 <= npads) \/
     (length body mod 4 = 3 /\ npads = 2))%nat.

(** The exceptions of the base64 stage: [binascii.Error], and the
    [ValueError] for a string that is not ASCII. *)
Definition encoding_error (e : exn) : Prop :=
  match e with
  | BinasciiError _ | ValueError _ => True
  | _ => False
  end.

(** ** External collaborators *)

(** The REST layer of [BaseRester]: [get_data_by_id] answers with a typed
    document, [_query_resource] with the untyped body of the response;
    either may raise. *)
Class Transport : Type := {
  get_data_by_id_response :
    string -> list string -> exn + ElectronicStructureDoc;
  query_resource_response :
    gmap string pyval -> string -> bool -> Z -> Z -> exn + gmap string pyval
}.

(** The library stages after base64: [zlib.decompress],
    [msgpack.unpackb(..., raw=False)] and
    [MontyDecoder().process_decoded], which builds the pymatgen object. *)
Class Codec (PyObject : Type) : Type := {
  zlib_decompress : list Byte.byte -> exn + list Byte.byte;
  msgpack_unpackb : list Byte.byte -> exn + pyval;
  process_decoded : pyval -> exn + PyObject
}.

(** The writers of the stored format: [zlib.compress], [msgpack.packb]
    and monty's [as_dict]. *)
Class Encoder (PyObject : Type) : Type := {
  zlib_compress : list Byte.byte -> list Byte.byte;
  msgpack_packb : pyval -> list Byte.byte;
  as_dict : PyObject -> pyval
}.

(** [BSPathType] is imported from [emmet.core]; the client reads only the
    [.value] of a member. *)
Class PathType (BSPathType : Type) : Type := {
  value : BSPathType -> string
}.

(** ** The two resters *)

Section Client.

Context {PyObject BSPathType : Type}.
Context `{transport : !Transport, codec : !Codec PyObject,
          path_types : !PathType BSPathType}.

Definition get_data_by_id (document_id : string) (fields : list string)
  : M ElectronicStructureDoc :=
  ([EvGetDataById document_id fields],
   get_data_by_id_response document_id fields).

Definition _query_resource (criteria : gmap string pyval) (suburl : string)
    (use_document_model : bool) (num_chunks chunk_size : Z)
  : M (gmap string pyval) :=
  ([EvQueryResource criteria suburl use_document_model num_chunks chunk_size],
   query_resource_response criteria suburl use_document_model
     num_chunks chunk_size).

(** [BandStructureRester.get_bandstructure_from_task_id]. *)
Definition get_bandstructure_from_task_id (task_id : pyval) : M pyval :=
  result ← _query_resource
    {[ "task_id" := task_id; "_all_fields" := PBool true ]}
    "object" false 1 1;
  if is_not_None (dict_get result "data")
  then lift (py_getitem (PDict result) (KStr "data"))
  else raise (MPRestError "No object found").

(** [BandStructureRester.get_bandstructure_from_material_id]. *)
Definition get_bandstructure_from_material_id (material_id : string)
    (path_type : BSPathType) (line_mode : bool) : M PyObject :=
  bs_task_id ←
    (if line_mode then
       doc ← get_data_by_id material_id ["bandstructure"];
       match bandstructure doc with
       | None =>
           raise (MPRestError ("No " +:+ value path_type +:+
                    " band structure data found for " +:+ material_id))
       | Some bs_data =>
           if truthy (dict_get bs_data (value path_type))
           then
             entry ← lift (py_getitem (PDict bs_data) (KStr (value path_type)));
             lift (py_getitem entry (KStr "task_id"))
           else
             raise (MPRestError ("No " +:+ value path_type +:+
                      " band structure data found for " +:+ material_id))
       end
     else
       doc ← get_data_by_id material_id ["dos"];
       match dos doc with
       | None =>
           raise (MPRestError
                    ("No uniform band structure data found for " +:+ material_id))
       | Some bs_data =>
           if truthy (dict_get bs_data "total")
           then
             total ← lift (py_getitem (PDict bs_data) (KStr "total"));
             one ← lift (py_getitem total (KStr "1"));
             lift (py_getitem one (KStr "task_id"))
           else
             raise (MPRestError
                      ("No uniform band structure data found for " +:+ material_id))
       end);
  bs_obj ← get_bandstructure_from_task_id bs_task_id;
  if truthy bs_obj then
    first ← lift (py_getitem bs_obj (KInt 0));
    b64_bytes ← lift (Base64.b64decode_validate first);
    packed_bytes ← lift (zlib_decompress b64_bytes);
    json_data ← lift (msgpack_unpackb packed_bytes);
    payload ← lift (py_getitem json_data (KStr "data"));
    data ← lift (process_decoded payload);
    mret data
  else raise (MPRestError "No band structure object found.").

(** [DosRester.get_dos_from_task_id]. *)
Definition get_dos_from_task_id (task_id : pyval) : M pyval :=
  result ← _query_resource
    {[ "task_id" := task_id; "_all_fields" := PBool true ]}
    "object" false 1 1;
  if is_not_None (dict_get result "data")
  then lift (py_getitem (PDict result) (KStr "data"))
  else raise (MPRestError "No object found").

(** [DosRester.get_dos_from_material_id]. *)
Definition get_dos_from_material_id (material_id : string) : M PyObject :=
  doc ← get_data_by_id material_id ["dos"];
  let dos_data := doc_dict doc in
  dos_field ← lift (py_getitem (PDict dos_data) (KStr "dos"));
  dos_task_id ←
    (if truthy dos_field then
       total ← lift (py_getitem dos_field (KStr "total"));
       one ← lift (py_getitem total (KStr "1"));
       lift (py_getitem one (KStr "task_id"))
     else
       raise (MPRestError
                ("No density of states data found for " +:+ material_id)));
  dos_obj ← get_dos_from_task_id dos_task_id;
  if truthy dos_obj then
    first ← lift (py_getitem dos_obj (KInt 0));
    b64_bytes ← lift (Base64.b64decode_validate first);
    packed_bytes ← lift (zlib_decompress b64_bytes);
    json_data ← lift (msgpack_unpackb packed_bytes);
    payload ← lift (py_getitem json_data (KStr "data"));
    data ← lift (process_decoded payload);
    mret data
  else raise (MPRestError "No density of states object found.").

(** The four decoding statements shared by the two [..._from_material_id]
    methods, on the first element of the fetched object. *)
Definition decode (first : pyval) : exn + PyObject :=
  match Base64.b64decode_validate first with
  | Raise e => Raise e
  | Return b64_bytes =>
      match zlib_decompress b64_bytes with
      | Raise e => Raise e
      | Return packed_bytes =>
          match msgpack_unpackb packed_bytes with
          | Raise e => Raise e
          | Return json_data =>
              match py_getitem json_data (KStr "data") with
              | Raise e => Raise e
              | Return payload => process_decoded payload
              end
          end
      end
  end.

(** *** The components the methods are made of

    The methods inline three steps: finding the task identifier in the
    material's document, fetching the object, and turning the fetched
    object into a pymatgen object.  Each step is named here, with the
    text it has in the method, so that statements can speak about it;
    [get_bandstructure_from_material_id_steps] and
    [get_dos_from_material_id_steps] show that the methods are their
    composition. *)

(** Lines 289-328 of [get_bandstructure_from_material_id]. *)
Definition resolve_bandstructure_task (material_id : string)
    (path_type : BSPathType) (line_mode : bool) : M pyval :=
  if line_mode then
    doc ← get_data_by_id material_id ["bandstructure"];
    match bandstructure doc with
    | None =>
        raise (MPRestError ("No " +:+ value path_type +:+
                 " band structure data found for " +:+ material_id))
    | Some bs_data =>
        if truthy (dict_get bs_data (value path_type))
        then
          entry ← lift (py_getitem (PDict bs_data) (KStr (value path_type)));
          lift (py_getitem entry (KStr "task_id"))
        else
          raise (MPRestError ("No " +:+ value path_type +:+
                   " band structure data found for " +:+ material_id))
    end
  else
    doc ← get_data_by_id material_id ["dos"];
    match dos doc with
    | None =>
        raise (MPRestError
                 ("No uniform band structure data found for " +:+ material_id))
    | Some bs_data =>
        if truthy (dict_get bs_data "total")
        then
          total ← lift (py_getitem (PDict bs_data) (KStr "total"));
          one ← lift (py_getitem total (KStr "1"));
          lift (py_getitem one (KStr "task_id"))
        else
          raise (MPRestError
                   ("No uniform band structure data found for " +:+ material_id))
    end.

(** Lines 479-488 of [get_dos_from_material_id]. *)
Definition resolve_dos_task (material_id : string) : M pyval :=
  doc ← get_data_by_id material_id ["dos"];
  let dos_data := doc_dict doc in
  dos_field ← lift (py_getitem (PDict dos_data) (KStr "dos"));
  if truthy dos_field then
    total ← lift (py_getitem dos_field (KStr "total"));
    one ← lift (py_getitem total (KStr "1"));
    lift (py_getitem one (KStr "task_id"))
  else
    raise (MPRestError
             ("No density of states data found for " +:+ material_id)).

(** The request that both [..._from_task_id] methods send. *)
Definition object_query (task_id : pyval) : event :=
  EvQueryResource {[ "task_id" := task_id; "_all_fields" := PBool true ]}
    "object" false 1 1.

(** What both [..._from_task_id] methods make of the answer to it. *)
Definition fetched (task_id : pyval) : exn + pyval :=
  match query_resource_response
          {[ "task_id" := task_id; "_all_fields" := PBool true ]}
          "object" false 1 1 with
  | Raise e => Raise e
  | Return result =>
      if is_not_None (dict_get result "data")
      then py_getitem (PDict result) (KStr "data")
      else Raise (MPRestError "No object found")
  end.

(** Lines 332-340 and 491-498: the guard on the fetched object, then the
    decoding of its first element. *)
Definition interpret (missing : string) (obj : pyval) : exn + PyObject :=
  if truthy obj then
    match py_getitem obj (KInt 0) with
    | Raise e => Raise e
    | Return first => decode first
    end
  else Raise (MPRestError missing).

End Client.

(** The stored form of an object, as the specification gives it:
    [base64(zlib(pack({"data": O})))]. *)
Definition encode {PyObject : Type} `{!Encoder PyObject} (o : PyObject)
  : string :=
  Base64.b64encode
    (zlib_compress (msgpack_packb (PDict {[ "data" := as_dict o ]}))).

(** A valid domain object is one that the three libraries write and read
    back faithfully: zlib inflates what it deflated, msgpack unpacks what
    it packed, and monty rebuilds the object, nested tagged substructures
    included, from its [as_dict] form. *)
Definition valid_object {PyObject : Type} `{!Codec PyObject, !Encoder PyObject}
    (o : PyObject) : Prop :=
  let wrapped := PDict {[ "data" := as_dict o ]} in
  zlib_decompress (zlib_compress (msgpack_packb wrapped))
    = Return (msgpack_packb wrapped) /\
  msgpack_unpackb (msgpack_packb wrapped) = Return wrapped /\
  process_decoded (as_dict o) = Return o.

(** ** An in-memory store

    A concrete REST layer and the members of [BSPathType], on which the
    methods can be run. *)
Module Demo.

Inductive BSPathType : Type := setyawan_curtarolo | hinuma | latimer_munro.

#[export] Instance path_types : PathType BSPathType := {|
  value pt :=
    match pt with
    | setyawan_curtarolo => "setyawan_curtarolo"
    | hinuma => "hinuma"
    | latimer_munro => "latimer_munro"
    end
|}.

(** Documents by material id, response bodies of the object endpoint by
    task id. *)
Definition store (docs : gmap string ElectronicStructureDoc)
    (objects : gmap string (gmap string pyval)) : Transport := {|
  get_data_by_id_response document_id _ :=
    match docs !! document_id with
    | Some doc => Return doc
    | None => Raise (MPRestError ("No result for record " +:+ document_id))
    end;
  query_resource_response criteria _ _ _ _ :=
    match criteria !! "task_id" with
    | Some (PStr task_id) => Return (default ∅ (objects !! task_id))
    | _ => Return ∅
    end
|}.

(** Two pymatgen-like objects, tagged the way monty tags them. *)
Inductive PyObject : Type :=
  | BandStructureSymmLine (efermi : Z)
  | CompleteDos (efermi : Z).

Definition tagged (module class : string) (efermi : Z) : pyval :=
  PDict {[ "@module" := PStr module; "@class" := PStr class;
           "efermi" := PInt efermi ]}.

Definition monty_as_dict (o : PyObject) : pyval :=
  match o with
  | BandStructureSymmLine e =>
      tagged "pymatgen.electronic_structure.bandstructure"
        "BandStructureSymmLine" e
  | CompleteDos e =>
      tagged "pymatgen.electronic_structure.dos" "CompleteDos" e
  end.

Definition monty_process_decoded (v : pyval) : exn + PyObject :=
  match v with
  | PDict d =>
      match d !! "@class", d !! "efermi" with
      | Some (PStr class), Some (PInt e) =>
          if String.eqb class "BandStructureSymmLine"
          then Return (BandStructureSymmLine e)
          else if String.eqb class "CompleteDos"
          then Return (CompleteDos e)
          else Raise (LibraryError "monty" "unknown class")
      | _, _ => Raise (LibraryError "monty" "missing field")
      end
  | _ => Raise (LibraryError "monty" "not a tagged dict")
  end.

(** A stored-block stand-in for zlib: one header byte, then the data. *)
Definition stored_compress (bs : list Byte.byte) : list Byte.byte :=
  Byte.x78 :: bs.

Definition stored_decompress (bs : list Byte.byte)
  : exn + list Byte.byte :=
  match bs with
  | Byte.x78 :: data => Return data
  | _ => Raise (LibraryError "zlib.error" "incorrect header check")
  end.

(** The msgpack formats nil, bool, positive fixint, fixstr, str 8,
    fixarray and fixmap. *)
Definition tag (base : N) (n : nat) : Byte.byte :=
  Base64.byte_of (base + N.of_nat n).

Definition pack_str (s : string) : list Byte.byte :=
  if (String.length s <? 32)%nat
  then tag 160 (String.length s) :: list_byte_of_string s
  else Byte.xd9 :: tag 0 (String.length s) :: list_byte_of_string s.

Fixpoint pack (v : pyval) : list Byte.byte :=
  match v with
  | PNone => [Byte.xc0]
  | PBool false => [Byte.xc2]
  | PBool true => [Byte.xc3]
  | PInt z => [Base64.byte_of (Z.to_N z)]
  | PFloat _ => [Byte.xc1]
  | PStr s => pack_str s
  | PList l => tag 144 (length l) :: concat (map pack l)
  | PDict d =>
      tag 128 (size d) ::
      map_fold (fun k x acc => pack_str k ++ pack x ++ acc)%list [] d
  end.

Fixpoint unpack (fuel : nat) (bs : list Byte.byte)
  : option (pyval * list Byte.byte) :=
  match fuel, bs with
  | S fuel', b :: rest =>
      let t := Byte.to_N b in
      if (t <? 128)%N then Some (PInt (Z.of_N t), rest)
      else if (t <? 144)%N then
        (fix entries (n : nat) (bs : list Byte.byte) (d : gmap string pyval) :=
           match n with
           | O => Some (PDict d, bs)
           | S n' =>
               match unpack fuel' bs with
               | Some (PStr k, bs1) =>
                   match unpack fuel' bs1 with
                   | Some (x, bs2) => entries n' bs2 (<[k := x]> d)
                   | None => None
                   end
               | _ => None
               end
           end) (N.to_nat (t - 128)) rest ∅
      else if (t <? 160)%N then
        (fix items (n : nat) (bs : list Byte.byte) (acc : list pyval) :=
           match n with
           | O => Some (PList (rev acc), bs)
           | S n' =>
               match unpack fuel' bs with
               | Some (x, bs1) => items n' bs1 (x :: acc)
               | None => None
               end
           end) (N.to_nat (t - 144)) rest []
      else if (t <? 192)%N then
        let n := N.to_nat (t - 160) in
        if (n <=? length rest)%nat
        then Some (PStr (string_of_list_byte (take n rest)), drop n rest)
        else None
      else if (t =? 217)%N then
        match rest with
        | len :: rest' =>
            let n := N.to_nat (Byte.to_N len) in
            if (n <=? length rest')%nat
            then Some (PStr (string_of_list_byte (take n rest')), drop n rest')
            else None
        | [] => None
        end
      else if (t =? 192)%N then Some (PNone, rest)
      else if (t =? 194)%N then Some (PBool false, rest)
      else if (t =? 195)%N then Some (PBool true, rest)
      else None
  | _, _ => None
  end.

Definition unpackb (bs : list Byte.byte) : exn + pyval :=
  match unpack (length bs) bs with
  | Some (v, []) => Return v
  | Some (_, _ :: _) => Raise (LibraryError "msgpack.ExtraData" "extra data")
  | None => Raise (LibraryError "msgpack.UnpackException" "unpack failed")
  end.

#[export] Instance codec : Codec PyObject := {|
  zlib_decompress := stored_decompress;
  msgpack_unpackb := unpackb;
  process_decoded := monty_process_decoded
|}.

#[export] Instance encoder : Encoder PyObject := {|
  zlib_compress := stored_compress;
  msgpack_packb := pack;
  as_dict := monty_as_dict
|}.

Definition task_entry (task_id : string) : pyval :=
  PDict {[ "task_id" := PStr task_id ]}.

Definition doc_for (bs_task dos_task : string) : ElectronicStructureDoc :=
  {| bandstructure := Some {[ "setyawan_curtarolo" := task_entry bs_task ]};
     dos := Some {[ "total" := PDict {[ "1" := task_entry dos_task ]} ]} |}.

Definition docs : gmap string ElectronicStructureDoc :=
  {[ "mp-149" := doc_for "mp-1" "mp-2";
     "mp-empty" := {| bandstructure := None; dos := None |};
     "mp-odd" :=
       {| bandstructure :=
            Some {[ "setyawan_curtarolo" := PDict ∅; "hinuma" := PNone ]};
          dos := Some {[ "total" := PDict ∅ ]} |};
     "mp-hollow" := doc_for "mp-3" "mp-3";
     "mp-corrupt" := doc_for "mp-4" "mp-5";
     "mp-lost" := doc_for "mp-6" "mp-6" ]}.

Definition objects : gmap string (gmap string pyval) :=
  {[ "mp-1" :=
       {[ "data" := PList [PStr (encode (BandStructureSymmLine 5))] ]};
     "mp-2" := {[ "data" := PList [PStr (encode (CompleteDos 7))] ]};
     "mp-3" := {[ "data" := PList [] ]};
     "mp-4" := {[ "data" := PList [PStr "QUJD!"] ]};
     "mp-5" := {[ "data" := PList [PStr "QUJDR"] ]};
     "mp-6" := {[ "data" := PNone ]} ]}.

#[export] Instance transport : Transport := store docs objects.

End Demo.

(** ** Python strings *)

(** [sep.join(parts)]. *)
Fixpoint str_join (sep : string) (parts : list string) : string :=
  match parts with
  | [] => ""
  | [x] => x
  | x :: rest => x +:+ sep +:+ str_join sep rest
  end.

(** [s.split(sep)] for a separator of one character: every occurrence
    cuts, and empty pieces are kept. *)
Fixpoint str_split (sep : ascii) (s : string) : list string :=
  match s with
  | EmptyString => [""]
  | String c s' =>
      if Ascii.eqb c sep then "" :: str_split sep s'
      else match str_split sep s' with
           | piece :: pieces => String c piece :: pieces
           | [] => [String c ""]
           end
  end.

(** The character occurs in the string. *)
Definition has_char (c : ascii) (s : string) : Prop :=
  In c (list_ascii_of_string s).

(** [c.isspace()] on the code points below 256. *)
Definition py_isspace (c : ascii) : bool :=
  let n := N_of_ascii c in
  ((9 <=? n) && (n <=? 13) || (28 <=? n) && (n <=? 32) ||
   (n =? 133) || (n =? 160))%N.

Fixpoint lstrip_chars (cs : list ascii) : list ascii :=
  match cs with
  | c :: cs' => if py_isspace c then lstrip_chars cs' else cs
  | [] => []
  end.

(** [s.strip()]. *)
Definition str_strip (s : string) : string :=
  string_of_list_ascii
    (rev (lstrip_chars (rev (lstrip_chars (list_ascii_of_string s))))).

(** [d.update(other)]. *)
Definition dict_update (d other : gmap string pyval) : gmap string pyval :=
  other ∪ d.

(** [{k: d[k] for k in d if d[k] is not None}]. *)
Definition drop_None (d : gmap string pyval) : gmap string pyval :=
  filter (fun kv => is_not_None kv.2 = true) d.

(** ** The search methods of the resters *)

(** [BaseRester._search(num_chunks, chunk_size, all_fields, fields,
    **query_params)], which sends the query. *)
Class SearchLayer (Docs : Type) : Type := {
  _search : option Z -> Z -> bool -> option (list string) ->
            gmap string pyval -> exn + Docs
}.

(** An [Enum] of pymatgen or emmet ([Ordering], [Element], [OrbitalType],
    [Spin], [DOSProjectionType]); the methods read the [.value] of a
    member, and a member is truthy. *)
Class PyEnum (E : Type) : Type := {
  enum_value : E -> pyval
}.

(** A [Union[str, List[str]]] argument. *)
Definition text : Type := string + list string.

(** [bool(x)] for an [Optional[Union[str, List[str]]]]. *)
Definition text_given (x : option text) : bool :=
  match x with
  | Some (inl s) => negb (String.eqb s "")
  | Some (inr l) => match l with [] => false | _ :: _ => true end
  | None => false
  end.

(** [if isinstance(x, str): x = [x]]. *)
Definition text_list (x : option text) : list string :=
  match x with
  | Some (inl s) => [s]
  | Some (inr l) => l
  | None => []
  end.

(** [bool(x)] for an [Optional[List[str]]]. *)
Definition list_given (x : option (list string)) : bool :=
  match x with
  | Some (_ :: _) => true
  | _ => false
  end.

(** [{"<name>_min": r[0], "<name>_max": r[1]}] when the range is given. *)
Definition update_range (name_min name_max : string)
    (r : option (pyval * pyval)) (d : gmap string pyval)
  : gmap string pyval :=
  match r with
  | Some (lo, hi) => dict_update d {[ name_min := lo; name_max := hi ]}
  | None => d
  end.

Definition update_flag (name : string) (b : option bool)
    (d : gmap string pyval) : gmap string pyval :=
  match b with
  | Some v => dict_update d {[ name := PBool v ]}
  | None => d
  end.

Definition update_joined (name : string) (given : bool)
    (parts : list string) (d : gmap string pyval) : gmap string pyval :=
  if given then dict_update d {[ name := PStr (str_join "," parts) ]} else d.

Definition update_enum {E : Type} `{!PyEnum E} (name : string)
    (x : option E) (d : gmap string pyval) : gmap string pyval :=
  match x with
  | Some member => dict_update d {[ name := enum_value member ]}
  | None => d
  end.

Module ElectronicStructureRester.
Section Search.

Context {Docs Ordering : Type}.
Context `{layer : !SearchLayer Docs, orderings : !PyEnum Ordering}.

(** The keyword arguments of [search]. *)
Record Args : Type := {
  band_gap : option (pyval * pyval);
  chemsys : option text;
  efermi : option (pyval * pyval);
  elements : option (list string);
  exclude_elements : option (list string);
  formula : option text;
  is_gap_direct : option bool;
  is_metal : option bool;
  magnetic_ordering : option Ordering;
  num_elements : option (pyval * pyval);
  sort_fields : option (list string);
  num_chunks : option Z;
  chunk_size : Z;
  all_fields : bool;
  fields : option (list string)
}.

(** The defaults of the signature. *)
Definition defaults : Args := {|
  band_gap := None; chemsys := None; efermi := None; elements := None;
  exclude_elements := None; formula := None; is_gap_direct := None;
  is_metal := None; magnetic_ordering := None; num_elements := None;
  sort_fields := None; num_chunks := None; chunk_size := 1000;
  all_fields := true; fields := None
|}.

(** Lines 87-138: the dict handed to [_search]. *)
Definition query_params (a : Args) : gmap string pyval :=
  let query_params : gmap string pyval := ∅ in
  let query_params :=
    update_joined "formula" (text_given (formula a)) (text_list (formula a))
      query_params in
  let query_params :=
    update_joined "chemsys" (text_given (chemsys a)) (text_list (chemsys a))
      query_params in
  let query_params :=
    update_joined "elements" (list_given (elements a))
      (default [] (elements a)) query_params in
  let query_params :=
    update_joined "exclude_elements" (list_given (exclude_elements a))
      (default [] (exclude_elements a)) query_params in
  let query_params :=
    update_range "band_gap_min" "band_gap_max" (band_gap a) query_params in
  let query_params :=
    update_range "efermi_min" "efermi_max" (efermi a) query_params in
  let query_params :=
    update_enum "magnetic_ordering" (magnetic_ordering a) query_params in
  let query_params :=
    update_range "nelements_min" "nelements_max" (num_elements a)
      query_params in
  let query_params :=
    update_flag "is_gap_direct" (is_gap_direct a) query_params in
  let query_params := update_flag "is_metal" (is_metal a) query_params in
  let query_params :=
    update_joined "_sort_fields" (list_given (sort_fields a))
      (map str_strip (default [] (sort_fields a))) query_params in
  drop_None query_params.

(** [ElectronicStructureRester.search]. *)
Definition search (a : Args) : exn + Docs :=
  _search (num_chunks a) (chunk_size a) (all_fields a) (fields a)
    (query_params a).

(** The same call with another [formula], or other [sort_fields]. *)
Definition with_formula (f : option text) (a : Args) : Args := {|
  band_gap := band_gap a; chemsys := chemsys a; efermi := efermi a;
  elements := elements a; exclude_elements := exclude_elements a;
  formula := f; is_gap_direct := is_gap_direct a; is_metal := is_metal a;
  magnetic_ordering := magnetic_ordering a; num_elements := num_elements a;
  sort_fields := sort_fields a; num_chunks := num_chunks a;
  chunk_size := chunk_size a; all_fields := all_fields a; fields := fields a
|}.

(** The keywords that [search] can pass on. *)
Definition keywords : list string :=
  [ "formula"; "chemsys"; "elements"; "exclude_elements";
    "band_gap_min"; "band_gap_max"; "efermi_min"; "efermi_max";
    "magnetic_ordering"; "nelements_min"; "nelements_max";
    "is_gap_direct"; "is_metal"; "_sort_fields" ].

End Search.
End ElectronicStructureRester.

Module BandStructureRester.
Section Search.

Context {Docs Ordering BSPathType : Type}.
Context `{layer : !SearchLayer Docs, orderings : !PyEnum Ordering,
          path_types : !PathType BSPathType}.

Record Args : Type := {
  band_gap : option (pyval * pyval);
  efermi : option (pyval * pyval);
  is_gap_direct : option bool;
  is_metal : option bool;
  magnetic_ordering : option Ordering;
  path_type : BSPathType;
  sort_fields : option (list string);
  num_chunks : option Z;
  chunk_size : Z;
  all_fields : bool;
  fields : option (list string)
}.

(** Lines 203-233: the dict handed to [_search]. *)
Definition query_params (a : Args) : gmap string pyval :=
  let query_params : gmap string pyval := ∅ in
  let query_params :=
    <[ "path_type" := PStr (value (path_type a)) ]> query_params in
  let query_params :=
    update_range "band_gap_min" "band_gap_max" (band_gap a) query_params in
  let query_params :=
    update_range "efermi_min" "efermi_max" (efermi a) query_params in
  let query_params :=
    update_enum "magnetic_ordering" (magnetic_ordering a) query_params in
  let query_params :=
    update_flag "is_gap_direct" (is_gap_direct a) query_params in
  let query_params := update_flag "is_metal" (is_metal a) query_params in
  let query_params :=
    update_joined "_sort_fields" (list_given (sort_fields a))
      (map str_strip (default [] (sort_fields a))) query_params in
  drop_None query_params.

(** [BandStructureRester.search]. *)
Definition search (a : Args) : exn + Docs :=
  _search (num_chunks a) (chunk_size a) (all_fields a) (fields a)
    (query_params a).

(** The keywords that [search] can pass on. *)
Definition keywords : list string :=
  [ "path_type"; "band_gap_min"; "band_gap_max"; "efermi_min"; "efermi_max";
    "magnetic_ordering"; "is_gap_direct"; "is_metal"; "_sort_fields" ].

End Search.
End BandStructureRester.

Module DosRester.
Section Search.

Context {Docs Ordering Element OrbitalType DOSProjectionType Spin : Type}.
Context `{layer : !SearchLayer Docs, orderings : !PyEnum Ordering,
          element_members : !PyEnum Element,
          orbitals : !PyEnum OrbitalType,
          projections : !PyEnum DOSProjectionType, spins : !PyEnum Spin}.

Record Args : Type := {
  band_gap : option (pyval * pyval);
  efermi : option (pyval * pyval);
  element : option Element;
  magnetic_ordering : option Ordering;
  orbital : option OrbitalType;
  projection_type : DOSProjectionType;
  spin : Spin;
  sort_fields : option (list string);
  num_chunks : option Z;
  chunk_size : Z;
  all_fields : bool;
  fields : option (list string)
}.

(** Lines 399-430: the dict handed to [_search]. *)
Definition query_params (a : Args) : gmap string pyval :=
  let query_params : gmap string pyval := ∅ in
  let query_params :=
    <[ "projection_type" := enum_value (projection_type a) ]> query_params in
  let query_params := <[ "spin" := enum_value (spin a) ]> query_params in
  let query_params :=
    match element a with
    | Some member => <[ "element" := enum_value member ]> query_params
    | None => query_params
    end in
  let query_params :=
    match orbital a with
    | Some member => <[ "orbital" := enum_value member ]> query_params
    | None => query_params
    end in
  let query_params :=
    update_range "band_gap_min" "band_gap_max" (band_gap a) query_params in
  let query_params :=
    update_range "efermi_min" "efermi_max" (efermi a) query_params in
  let query_params :=
    update_enum "magnetic_ordering" (magnetic_ordering a) query_params in
  let query_params :=
    update_joined "_sort_fields" (list_given (sort_fields a))
      (map str_strip (default [] (sort_fields a))) query_params in
  drop_None query_params.

(** [DosRester.search]. *)
Definition search (a : Args) : exn + Docs :=
  _search (num_chunks a) (chunk_size a) (all_fields a) (fields a)
    (query_params a).

(** The keywords that [search] can pass on. *)
Definition keywords : list string :=
  [ "projection_type"; "spin"; "element"; "orbital";
    "band_gap_min"; "band_gap_max"; "efermi_min"; "efermi_max";
    "magnetic_ordering"; "_sort_fields" ].

End Search.
End DosRester.

(** ** The query operators of the search route

    [src/mp_api/routes/search/query_operators.py].  An operator turns the
    parameters of a request into [STORE_PARAMS], a dict with the
    ["criteria"] or the ["pipeline"] of the database query. *)

(** What can go wrong in an operator: a local read before assignment, an
    attribute never set, or an exception of the values handled. *)
Inductive operator_exn : Type :=
  | UnboundLocalError (name : string)
  | AttributeError (msg : string)
  | Raised (e : exn).

Module QueryOperators.

(** [HasPropsQuery.query]. *)
Definition HasPropsQuery_query (has_props : option string) : pyval :=
  let crit : gmap string pyval := ∅ in
  let crit :=
    match has_props with
    | Some s =>
        if truthy (PStr s)
        then {[ "has_props" :=
                  PDict {[ "$all" := PList (PStr <$> str_split "," s) ]} ]}
        else crit
    | None => crit
    end in
  PDict {[ "criteria" := PDict crit ]}.

(** [MaterialIDsSearchQuery.query]. *)
Definition MaterialIDsSearchQuery_query (material_ids : option string)
  : pyval :=
  let crit : gmap string pyval := ∅ in
  let crit :=
    match material_ids with
    | Some s =>
        if truthy (PStr s)
        then dict_update crit
               {[ "material_id" :=
                    PDict {[ "$in" := PList (PStr <$> str_split "," s) ]} ]}
        else crit
    | None => crit
    end in
  PDict {[ "criteria" := PDict crit ]}.

(** [SearchIsStableQuery.query]. *)
Definition SearchIsStableQuery_query (is_stable : option bool) : pyval :=
  let crit : gmap string pyval := ∅ in
  let crit :=
    match is_stable with
    | Some b => <[ "is_stable" := PBool b ]> crit
    | None => crit
    end in
  PDict {[ "criteria" := PDict crit ]}.

(** [SearchMagneticQuery.query]; [MagneticOrderingEnum] is an [Enum]. *)
Definition SearchMagneticQuery_query {MagneticOrderingEnum : Type}
    `{!PyEnum MagneticOrderingEnum} (ordering : option MagneticOrderingEnum)
  : pyval :=
  let crit : gmap string pyval := ∅ in
  let crit :=
    match ordering with
    | Some member => <[ "ordering" := enum_value member ]> crit
    | None => crit
    end in
  PDict {[ "criteria" := PDict crit ]}.

(** [SearchIsTheoreticalQuery.query]. *)
Definition SearchIsTheoreticalQuery_query (theoretical : option bool)
  : pyval :=
  let crit : gmap string pyval := ∅ in
  let crit :=
    match theoretical with
    | Some b => <[ "theoretical" := PBool b ]> crit
    | None => crit
    end in
  PDict {[ "criteria" := PDict crit ]}.

(** *** [SearchStatsQuery] *)

(** The type of a field of the search document, as [v.type_] gives it. *)
Inductive py_type : Type := TFloat | TInt | TStr | TBool | TOther.

Definition is_float (t : py_type) : bool :=
  match t with TFloat => true | _ => false end.

(** The attributes that [query] sets on the operator. *)
Record StatsAttrs : Type := {
  num_points : pyval;
  min_val : pyval;
  max_val : pyval
}.

(** The operator after [__init__]: the numeric fields, the default of the
    [field] parameter, and the attributes, unset until [query] runs. *)
Record SearchStatsQuery : Type := {
  valid_numeric_fields : list string;
  default_field : string;
  attrs : option StatsAttrs
}.

(** [sorted(k for k, v in search_doc.__fields__.items() if v.type_ == float)]. *)
Definition numeric_fields (fields : list (string * py_type)) : list string :=
  merge_sort String.le (fst <$> filter (fun kv => is_float kv.2 = true) fields).

(** [SearchStatsQuery.__init__], on the [__fields__] of the search
    document: the default of [field] is [valid_numeric_fields[0]]. *)
Definition SearchStatsQuery_init (fields : list (string * py_type))
  : exn + SearchStatsQuery :=
  let valid_numeric_fields := numeric_fields fields in
  match seq_index valid_numeric_fields 0 with
  | Some first =>
      Return {| valid_numeric_fields := valid_numeric_fields;
                default_field := first;
                attrs := None |}
  | None => Raise (IndexError "tuple index out of range")
  end.

(** The [query] closure that [__init__] installs: it stores three of its
    parameters on the operator and returns the aggregation pipeline. *)
Definition SearchStatsQuery_query (self : SearchStatsQuery)
    (field : string) (num_samples min_val max_val num_points : pyval)
  : SearchStatsQuery * pyval :=
  let self :=
    {| valid_numeric_fields := valid_numeric_fields self;
       default_field := default_field self;
       attrs := Some {| num_points := num_points; min_val := min_val;
                        max_val := max_val |} |} in
  let pipeline :=
    if truthy min_val || truthy max_val then
      let bounds : gmap string pyval := ∅ in
      let bounds :=
        if truthy min_val then <[ "$gte" := min_val ]> bounds else bounds in
      let bounds :=
        if truthy max_val then <[ "$lte" := max_val ]> bounds else bounds in
      [PDict {[ "$match" := PDict {[ field := PDict bounds ]} ]}]
    else [] in
  let pipeline :=
    if truthy num_samples
    then (pipeline ++ [PDict {[ "$sample" :=
                                  PDict {[ "size" := num_samples ]} ]}])%list
    else pipeline in
  let pipeline :=
    (pipeline ++
     [PDict {[ "$project" :=
                 PDict (<[ "_id" := PInt 0 ]> {[ field := PInt 1 ]}) ]}])%list in
  (self, PDict {[ "pipeline" := PList pipeline ]}).

(** The stages of the pipeline that [query] returns. *)
Definition stages (params : pyval) : list pyval :=
  match params with
  | PDict d => match d !! "pipeline" with Some (PList l) => l | _ => [] end
  | _ => []
  end.

(** The numerics of [post_process]: the builtins [min] and [max], the
    kernel density estimate [list(gaussian_kde(values)(np.arange(lo, hi,
    step=(hi - lo) / num_points)))], [float(np.median(values))],
    [float(np.mean(values))], and the constructor of [SearchStats], a
    model of [mp_api.routes.search.models]. *)
Class Numerics (Stats : Type) : Type := {
  py_min : list pyval -> exn + pyval;
  py_max : list pyval -> exn + pyval;
  kde_distribution : list pyval -> pyval -> pyval -> pyval -> exn + list pyval;
  np_median : list pyval -> exn + pyval;
  np_mean : list pyval -> exn + pyval;
  SearchStats : string -> Z -> pyval -> pyval -> list pyval -> pyval ->
                pyval -> exn + Stats
}.

(** [d[field]] on a document, a dict whose keys are kept in order. *)
Fixpoint doc_getitem (d : list (string * pyval)) (field : string)
  : exn + pyval :=
  match d with
  | [] => Raise (KeyError (KStr field))
  | (k, v) :: d' => if String.eqb k field then Return v else doc_getitem d' field
  end.

(** [[d[field] for d in docs]]. *)
Fixpoint field_values (docs : list (list (string * pyval))) (field : string)
  : exn + list pyval :=
  match docs with
  | [] => Return []
  | d :: docs' =>
      match doc_getitem d field with
      | Raise e => Raise e
      | Return v =>
          match field_values docs' field with
          | Raise e => Raise e
          | Return vs => Return (v :: vs)
          end
      end
  end.

#[local] Instance operator_bind : MBind (sum operator_exn) :=
  fun A B f m => match m with Raise e => Raise e | Return a => f a end.

Definition raised {A} (r : exn + A) : operator_exn + A :=
  match r with
  | Raise e => Raise (Raised e)
  | Return a => Return a
  end.

(** [SearchStatsQuery.post_process]. *)
Definition SearchStatsQuery_post_process {Stats : Type} `{!Numerics Stats}
    (self : SearchStatsQuery) (docs : list (list (string * pyval)))
  : operator_exn + list Stats :=
  match docs with
  | first :: _ =>
      match first with
      | [] => Raise (Raised (IndexError "list index out of range"))
      | (field, _) :: _ =>
          match attrs self with
          | None =>
              Raise (AttributeError
                "'SearchStatsQuery' object has no attribute 'num_points'")
          | Some stored =>
              let num_points := num_points stored in
              let min_val := min_val stored in
              let max_val := max_val stored in
              let num_samples := Z.of_nat (length docs) in
              values ← raised (field_values docs field);
              min_val ← (if negb (truthy min_val)
                         then raised (py_min values) else Return min_val);
              max_val ← (if negb (truthy max_val)
                         then raised (py_max values) else Return max_val);
              distribution ←
                raised (kde_distribution values min_val max_val num_points);
              median ← raised (np_median values);
              mean ← raised (np_mean values);
              response ←
                raised (SearchStats field num_samples min_val max_val
                          distribution median mean);
              Return [response]
          end
      end
  | [] => Raise (UnboundLocalError "response")
  end.

End QueryOperators.

(** ** Instances for the search methods and the operators *)
Module DemoSearch.

Inductive Ordering : Type := FM | AFM | NM.

#[export] Instance orderings : PyEnum Ordering := {|
  enum_value o :=
    PStr match o with FM => "FM" | AFM => "AFM" | NM => "NM" end
|}.

Inductive OrbitalType : Type := orbital_s | orbital_p | orbital_d | orbital_f.

#[export] Instance orbitals : PyEnum OrbitalType := {|
  enum_value o :=
    PInt match o with
         | orbital_s => 0 | orbital_p => 1 | orbital_d => 2 | orbital_f => 3
         end
|}.

Inductive Spin : Type := spin_up | spin_down.

#[export] Instance spins : PyEnum Spin := {|
  enum_value x := PInt match x with spin_up => 1 | spin_down => -1 end
|}.

Inductive DOSProjectionType : Type :=
  projection_total | projection_elemental | projection_orbital.

#[export] Instance projections : PyEnum DOSProjectionType := {|
  enum_value x :=
    PStr match x with
         | projection_total => "total"
         | projection_elemental => "elemental"
         | projection_orbital => "orbital"
         end
|}.

Inductive Element : Type := element_Si | element_Fe | element_O.

#[export] Instance element_members : PyEnum Element := {|
  enum_value x :=
    PStr match x with
         | element_Si => "Si" | element_Fe => "Fe" | element_O => "O"
         end
|}.

(** A search layer that answers with the keywords it was given. *)
#[export] Instance layer : SearchLayer (gmap string pyval) := {|
  _search _ _ _ _ query_params := Return query_params
|}.

(** Integer statistics, enough to run [post_process]. *)
Record Stats : Type := {
  stats_field : string;
  stats_num_samples : Z;
  stats_min : pyval;
  stats_max : pyval;
  stats_distribution : list pyval;
  stats_median : pyval;
  stats_mean : pyval
}.

Fixpoint ints (values : list pyval) : option (list Z) :=
  match values with
  | [] => Some []
  | PInt z :: rest => cons z <$> ints rest
  | _ => None
  end.

Definition fold_ints (f : Z -> Z -> Z) (values : list pyval) : exn + pyval :=
  match ints values with
  | Some (z :: zs) => Return (PInt (foldl f z zs))
  | Some [] => Raise (ValueError "arg is an empty sequence")
  | None => Raise (TypeError "not a number")
  end.

#[export] Instance numerics : QueryOperators.Numerics Stats := {|
  QueryOperators.py_min := fold_ints Z.min;
  QueryOperators.py_max := fold_ints Z.max;
  QueryOperators.kde_distribution values lo hi num_points :=
    match num_points with
    | PInt n => if n =? 0 then Raise (LibraryError "ZeroDivisionError" "division by zero")
                else Return (repeat (PInt 0) (Z.to_nat n))
    | _ => Raise (TypeError "not a number")
    end;
  QueryOperators.np_median := fold_ints Z.min;
  QueryOperators.np_mean := fold_ints Z.max;
  QueryOperators.SearchStats f n lo hi dist med mean :=
    Return {| stats_field := f; stats_num_samples := n; stats_min := lo;
              stats_max := hi; stats_distribution := dist;
              stats_median := med; stats_mean := mean |}
|}.

(** A store with documents and objects of unexpected shape. *)
Definition odd_docs : gmap string ElectronicStructureDoc :=
  {[ "mp-nototal" :=
       {| bandstructure := None;
          dos := Some {[ "elemental" := PDict ∅ ]} |};
     "mp-shape" := Demo.doc_for "mp-7" "mp-8" ]}.

Definition odd_objects : gmap string (gmap string pyval) :=
  {[ "mp-7" := {[ "data" := PDict {[ "x" := PInt 1 ]} ]};
     "mp-8" := {[ "data" := PList [PInt 123] ]} ]}.

Definition odd_store : Transport := Demo.store odd_docs odd_objects.

(** A search document with two numeric fields, and a call of
    [ElectronicStructureRester.search]. *)
Definition search_doc_fields : list (string * QueryOperators.py_type) :=
  [ ("formula_pretty", QueryOperators.TStr);
    ("efermi", QueryOperators.TFloat);
    ("nsites", QueryOperators.TInt);
    ("band_gap", QueryOperators.TFloat) ].

Definition es_call : ElectronicStructureRester.Args (Ordering := Ordering) :=
  {| ElectronicStructureRester.band_gap := Some (PNone, PInt 3);
     ElectronicStructureRester.chemsys := Some (inl "Si-O");
     ElectronicStructureRester.efermi := None;
     ElectronicStructureRester.elements := Some [];
     ElectronicStructureRester.exclude_elements := Some ["Fe"; "Co"];
     ElectronicStructureRester.formula := None;
     ElectronicStructureRester.is_gap_direct := Some false;
     ElectronicStructureRester.is_metal := None;
     ElectronicStructureRester.magnetic_ordering := Some NM;
     ElectronicStructureRester.num_elements := None;
     ElectronicStructureRester.sort_fields := Some [" band_gap"; "-efermi  "];
     ElectronicStructureRester.num_chunks := None;
     ElectronicStructureRester.chunk_size := 1000;
     ElectronicStructureRester.all_fields := true;
     ElectronicStructureRester.fields := None |}.

(** Calls of [BandStructureRester.search] and [DosRester.search]. *)
Definition bs_call
  : BandStructureRester.Args (Ordering := Ordering)
      (BSPathType := Demo.BSPathType) :=
  {| BandStructureRester.band_gap := Some (PInt 1, PInt 3);
     BandStructureRester.efermi := None;
     BandStructureRester.is_gap_direct := None;
     BandStructureRester.is_metal := Some false;
     BandStructureRester.magnetic_ordering := None;
     BandStructureRester.path_type := Demo.hinuma;
     BandStructureRester.sort_fields := None;
     BandStructureRester.num_chunks := Some 1;
     BandStructureRester.chunk_size := 10;
     BandStructureRester.all_fields := false;
     BandStructureRester.fields := Some ["material_id"] |}.

Definition dos_call
  : DosRester.Args (Ordering := Ordering) (Element := Element)
      (OrbitalType := OrbitalType) (DOSProjectionType := DOSProjectionType)
      (Spin := Spin) :=
  {| DosRester.band_gap := None;
     DosRester.efermi := None;
     DosRester.element := None;
     DosRester.magnetic_ordering := None;
     DosRester.orbital := Some orbital_s;
     DosRester.projection_type := projection_orbital;
     DosRester.spin := spin_down;
     DosRester.sort_fields := None;
     DosRester.num_chunks := None;
     DosRester.chunk_size := 1000;
     DosRester.all_fields := true;
     DosRester.fields := None |}.

End DemoSearch.

(** * Properties *)

(** ** base64 *)

Module Base64Facts.
Import Base64.

Lemma below_64 (P : N -> bool) :
  forallb P (map N.of_nat (seq 0 64)) = true ->
  forall n, (n < 64)%N -> P n = true.
Proof.
  intros Hall n Hn. rewrite forallb_forall in Hall. apply Hall.
  apply in_map_iff. exists (N.to_nat n). split; [lia|].
  apply in_seq. lia.
Qed.

Lemma sextet_of_char_of_sextet (n : N) :
  (n < 64)%N -> sextet_of_char (char_of_sextet n) = Some n.
Proof.
  intros Hn.
  pose proof (below_64
    (fun k => match sextet_of_char (char_of_sextet k) with
              | Some k' => N.eqb k' k
              | None => false
              end)) as Hall.
  specialize (Hall eq_refl n Hn). simpl in Hall.
  destruct (sextet_of_char (char_of_sextet n)) as [k|]; [|discriminate].
  apply N.eqb_eq in Hall. by subst.
Qed.

Lemma char_of_sextet_7bit (n : N) :
  (n < 64)%N -> is_7bit (char_of_sextet n) = true.
Proof. intros Hn. by apply (below_64 (fun k => is_7bit (char_of_sextet k))). Qed.

Ltac pow2 :=
  repeat match goal with
         | |- context [(2 ^ ?e)%N] =>
             let v := eval vm_compute in (2 ^ e)%N in
             change (2 ^ e)%N with v
         end.

Local Ltac Zify.zify_post_hook ::= Z.to_euclidean_division_equations.

Lemma sextet_lt (g i : N) : (sextet g i < 64)%N.
Proof. unfold sextet. apply N.mod_lt. discriminate. Qed.

Lemma byte_of_to_N (b : Byte.byte) : byte_of (Byte.to_N b) = b.
Proof.
  unfold byte_of. pose proof (Byte.to_N_bounded b) as Hb.
  rewrite N.mod_small by lia. by rewrite Byte.of_to_N.
Qed.

Lemma group_of_bytes_lt (b0 b1 b2 : Byte.byte) :
  (group_of_bytes b0 b1 b2 < 16777216)%N.
Proof.
  unfold group_of_bytes.
  pose proof (Byte.to_N_bounded b0). pose proof (Byte.to_N_bounded b1).
  pose proof (Byte.to_N_bounded b2). lia.
Qed.

Lemma byte_of_eq (n : N) (b : Byte.byte) :
  (n mod 256)%N = Byte.to_N b -> byte_of n = b.
Proof.
  intros Hn. rewrite <- (byte_of_to_N b). unfold byte_of.
  rewrite Hn. by rewrite (N.mod_small (Byte.to_N b)) by
    (pose proof (Byte.to_N_bounded b); lia).
Qed.

Lemma sextets_of_group (b0 b1 b2 : Byte.byte)
    (g := group_of_bytes b0 b1 b2) :
  group_of_sextets (sextet g 0) (sextet g 1) (sextet g 2) (sextet g 3) = g.
Proof.
  pose proof (group_of_bytes_lt b0 b1 b2) as Hg. fold g in Hg.
  clearbody g. unfold group_of_sextets, sextet. pow2. lia.
Qed.

Lemma octets_of_group (b0 b1 b2 : Byte.byte)
    (g := group_of_bytes b0 b1 b2) :
  octet g 0 = b0 /\ octet g 1 = b1 /\ octet g 2 = b2.
Proof.
  unfold octet, g, group_of_bytes. pow2.
  pose proof (Byte.to_N_bounded b0). pose proof (Byte.to_N_bounded b1).
  pose proof (Byte.to_N_bounded b2).
  repeat split; apply byte_of_eq; lia.
Qed.

(** A final group of one byte: two characters carry it. *)
Lemma octets_of_two_sextets (b0 : Byte.byte)
    (g := group_of_bytes b0 Byte.x00 Byte.x00) :
  octet (group_of_sextets (sextet g 0) (sextet g 1) 0 0) 0 = b0.
Proof.
  unfold octet, group_of_sextets, sextet, g, group_of_bytes. pow2.
  change (Byte.to_N Byte.x00) with 0%N.
  pose proof (Byte.to_N_bounded b0). apply byte_of_eq. lia.
Qed.

(** A final group of two bytes: three characters carry it. *)
Lemma octets_of_three_sextets (b0 b1 : Byte.byte)
    (g := group_of_bytes b0 b1 Byte.x00)
    (g' := group_of_sextets (sextet g 0) (sextet g 1) (sextet g 2) 0) :
  octet g' 0 = b0 /\ octet g' 1 = b1.
Proof.
  unfold octet, g', group_of_sextets, sextet, g, group_of_bytes. pow2.
  change (Byte.to_N Byte.x00) with 0%N.
  pose proof (Byte.to_N_bounded b0). pose proof (Byte.to_N_bounded b1).
  split; apply byte_of_eq; lia.
Qed.

Lemma list_ind3 {A} (P : list A -> Prop) :
  P [] -> (forall a, P [a]) -> (forall a b, P [a; b]) ->
  (forall a b c l, P l -> P (a :: b :: c :: l)) ->
  forall l, P l.
Proof.
  intros H0 H1 H2 H3. fix IH 1.
  intros [|a [|b [|c l]]]; [exact H0|apply H1|apply H2|].
  apply H3, IH.
Qed.

Lemma list_ind4 {A} (P : list A -> Prop) :
  P [] -> (forall a, P [a]) -> (forall a b, P [a; b]) ->
  (forall a b c, P [a; b; c]) ->
  (forall a b c d l, P l -> P (a :: b :: c :: d :: l)) ->
  forall l, P l.
Proof.
  intros H0 H1 H2 H3 H4. fix IH 1.
  intros [|a [|b [|c [|d l]]]]; [exact H0|apply H1|apply H2|apply H3|].
  apply H4, IH.
Qed.

Lemma scan_cons_sextet (n : N) (cs : list ascii) :
  (n < 64)%N ->
  scan (char_of_sextet n :: cs) = (n :: fst (scan cs), snd (scan cs)).
Proof.
  intros Hn. cbn [scan]. rewrite (sextet_of_char_of_sextet n Hn).
  by destruct (scan cs).
Qed.

(** The characters of an encoding scan back into sextets and padding
    from which [a2b_base64] rebuilds the bytes. *)
Lemma scan_b64encode (bs : list Byte.byte) :
  pads_ok (snd (scan (b64encode_chars bs))) = true /\
  forall count,
    a2b_base64 (fst (scan (b64encode_chars bs)))
      (length (snd (scan (b64encode_chars bs)))) count = Return bs.
Proof.
  induction bs as [|b0|b0 b1|b0 b1 b2 bs [IHpads IH]] using list_ind3.
  - split; reflexivity.
  - cbn [b64encode_chars]. rewrite !scan_cons_sextet by apply sextet_lt.
    split; [reflexivity|]. intros count. cbn.
    by rewrite octets_of_two_sextets.
  - cbn [b64encode_chars]. rewrite !scan_cons_sextet by apply sextet_lt.
    split; [reflexivity|]. intros count. cbn.
    by destruct (octets_of_three_sextets b0 b1) as [-> ->].
  - cbn [b64encode_chars]. rewrite !scan_cons_sextet by apply sextet_lt.
    cbn [fst snd]. split; [exact IHpads|]. intros count.
    cbn [a2b_base64]. rewrite IH, sextets_of_group.
    by destruct (octets_of_group b0 b1 b2) as (-> & -> & ->).
Qed.

Lemma b64encode_7bit (bs : list Byte.byte) :
  forallb is_7bit (b64encode_chars bs) = true.
Proof.
  induction bs as [|b0|b0 b1|b0 b1 b2 bs IH] using list_ind3;
    cbn [b64encode_chars forallb];
    rewrite ?char_of_sextet_7bit by apply sextet_lt;
    [reflexivity|reflexivity|reflexivity|exact IH].
Qed.

(** Strict decoding inverts encoding. *)
Lemma b64decode_b64encode (bs : list Byte.byte) :
  b64decode_validate (PStr (b64encode bs)) = Return bs.
Proof.
  unfold b64decode_validate, b64encode.
  rewrite list_ascii_of_string_of_list_ascii, b64encode_7bit.
  destruct (scan_b64encode bs) as [Hpads Hbytes].
  destruct (scan (b64encode_chars bs)) as [sx rest].
  cbn [fst snd] in *. rewrite Hpads. apply Hbytes.
Qed.

(** *** What strict decoding refuses *)

Lemma char_of_sextet_of_char (c : ascii) (n : N) :
  sextet_of_char c = Some n -> char_of_sextet n = c /\ (n < 64)%N.
Proof.
  destruct c as [[] [] [] [] [] [] [] []]; vm_compute;
    intros Heq; try discriminate Heq;
    injection Heq as <-; split; reflexivity.
Qed.

Lemma scan_spec (cs : list ascii) :
  cs = (map char_of_sextet (fst (scan cs)) ++ snd (scan cs))%list /\
  Forall (fun n => (n < 64)%N) (fst (scan cs)).
Proof.
  induction cs as [|c cs [IHeq IHlt]]; [by split|].
  cbn [scan]. destruct (sextet_of_char c) as [n|] eqn:Hc; [|by split].
  destruct (scan cs) as [sx rest]. cbn [fst snd map app] in *.
  destruct (char_of_sextet_of_char c n Hc) as [-> Hn].
  split; [by rewrite <- IHeq|by constructor].
Qed.

Lemma scan_keeps_invalid (cs : list ascii) (c : ascii) :
  In c cs -> sextet_of_char c = None -> In c (snd (scan cs)).
Proof.
  induction cs as [|d cs IH]; [done|].
  intros [->|Hin] Hc; cbn [scan].
  - rewrite Hc. by left.
  - destruct (sextet_of_char d); [|by right].
    destruct (scan cs). by apply IH.
Qed.

Lemma pads_ok_spec (rest : list ascii) :
  pads_ok rest = true ->
  rest = repeat pad (length rest) /\ (length rest <= 2)%nat.
Proof.
  destruct rest as [|p [|q [|r rest]]]; cbn [pads_ok]; [ | | |done].
  - intros _. split; [reflexivity|simpl; lia].
  - intros ->%Ascii.eqb_eq. split; [reflexivity|simpl; lia].
  - intros [->%Ascii.eqb_eq ->%Ascii.eqb_eq]%andb_true_iff.
    split; [reflexivity|simpl; lia].
Qed.

Lemma scan_app (body rest : list ascii) :
  Forall (fun c => is_Some (sextet_of_char c)) body ->
  scan rest = ([], rest) ->
  length (fst (scan (body ++ rest))) = length body /\
  snd (scan (body ++ rest)) = rest.
Proof.
  intros Hbody Hrest. induction Hbody as [|c body [n Hc] _ IH].
  - cbn [app]. by rewrite Hrest.
  - cbn [app scan]. rewrite Hc. destruct (scan (body ++ rest)).
    cbn [fst snd length] in *. destruct IH as [-> ->]. by split.
Qed.

Lemma scan_pads (npads : nat) : scan (repeat pad npads) = ([], repeat pad npads).
Proof. by destruct npads. Qed.

Lemma a2b_base64_incomplete (sx : list N) (npads count : nat) :
  (length sx mod 4 = 1 \/
   (length sx mod 4 <> 0 /\ length sx mod 4 + npads < 4))%nat ->
  exists msg, a2b_base64 sx npads count = Raise (BinasciiError msg).
Proof.
  induction sx as [|a|a b|a b c|a b c d sx IH] using list_ind4;
    cbn [length a2b_base64].
  - change (0 mod 4)%nat with 0%nat. lia.
  - eauto.
  - change (2 mod 4)%nat with 2%nat. intros Hshort.
    assert ((2 <=? npads)%nat = false) as -> by (apply Nat.leb_gt; lia).
    eauto.
  - change (3 mod 4)%nat with 3%nat. intros Hshort.
    assert ((1 <=? npads)%nat = false) as -> by (apply Nat.leb_gt; lia).
    eauto.
  - replace (S (S (S (S (length sx))))) with (length sx + 1 * 4)%nat by lia.
    rewrite Nat.Div0.mod_add. intros Hshort.
    destruct (IH Hshort) as [msg ->]. eauto.
Qed.

(** A decoding that succeeds has used every data character: three
    bytes for each four, nothing cut off. *)
Lemma a2b_base64_length (sx : list N) (npads count : nat)
    (bs : list Byte.byte) :
  a2b_base64 sx npads count = Return bs ->
  length bs = (3 * length sx / 4)%nat.
Proof.
  revert bs.
  induction sx as [|a|a b|a b c|a b c d sx IH] using list_ind4;
    intros bs; cbn [length a2b_base64].
  - by intros [= <-].
  - done.
  - destruct (2 <=? npads)%nat; [|done]. by intros [= <-].
  - destruct (1 <=? npads)%nat; [|done]. by intros [= <-].
  - destruct (a2b_base64 sx npads count) as [e|bs']; [done|].
    intros [= <-]. cbn [length]. rewrite (IH bs' eq_refl).
    replace (3 * S (S (S (S (length sx)))))%nat
      with (3 * length sx + 3 * 4)%nat by lia.
    rewrite Nat.div_add by lia. lia.
Qed.

Local Ltac refused := eexists; split; [|reflexivity]; exact I.

Lemma b64decode_invalid_char (s : string) :
  has_invalid_char s ->
  exists e, encoding_error e /\ b64decode_validate (PStr s) = Raise e.
Proof.
  intros (c & Hin & Hc & Hpad). unfold b64decode_validate.
  destruct (forallb is_7bit _); [|refused].
  pose proof (scan_keeps_invalid _ _ Hin Hc) as Hrest.
  destruct (scan _) as [sx rest]. cbn [snd] in Hrest.
  destruct (pads_ok rest) eqn:Hok; [|refused].
  destruct (pads_ok_spec _ Hok) as [Hrep _]. rewrite Hrep in Hrest.
  by apply repeat_spec in Hrest.
Qed.

Lemma b64decode_refused_padding (s : string) :
  refused_padding s ->
  exists e, encoding_error e /\ b64decode_validate (PStr s) = Raise e.
Proof.
  intros (body & npads & [Heq Hbody] & Hbad). unfold b64decode_validate.
  rewrite Heq. destruct (forallb is_7bit _); [|refused].
  destruct (scan_app body _ Hbody (scan_pads npads)) as [Hlen Hrest].
  destruct (scan _) as [sx rest]. cbn [fst snd] in *. subst rest.
  destruct (pads_ok _) eqn:Hok; [|refused].
  apply pads_ok_spec in Hok as [_ Hle]. rewrite repeat_length in *.
  destruct (a2b_base64_incomplete sx npads (length sx)) as [msg ->].
  { rewrite Hlen. lia. }
  refused.
Qed.

Lemma b64decode_complete (s : string) (bs : list Byte.byte) :
  b64decode_validate (PStr s) = Return bs ->
  exists sx npads,
    list_ascii_of_string s =
      (map char_of_sextet sx ++ repeat pad npads)%list /\
    (npads <= 2)%nat /\ length bs = (3 * length sx / 4)%nat.
Proof.
  unfold b64decode_validate.
  destruct (forallb is_7bit _); [|done].
  destruct (scan_spec (list_ascii_of_string s)) as [Heq _].
  destruct (scan _) as [sx rest]. cbn [fst snd] in Heq.
  destruct (pads_ok rest) eqn:Hok; [|done].
  apply pads_ok_spec in Hok as [Hrep Hle]. intros Hdec.
  exists sx, (length rest). rewrite <- Hrep.
  split; [exact Heq|]. split; [exact Hle|].
  by apply a2b_base64_length in Hdec.
Qed.

(** *** What strict decoding passes over *)

Lemma alphabet_7bit (c : ascii) :
  is_Some (sextet_of_char c) -> is_7bit c = true.
Proof.
  intros [n Hc]. destruct (char_of_sextet_of_char c n Hc) as [<- Hn].
  by apply char_of_sextet_7bit.
Qed.

Lemma padded_7bit (body : list ascii) (npads : nat) :
  Forall (fun c => is_Some (sextet_of_char c)) body ->
  forallb is_7bit (body ++ repeat pad npads) = true.
Proof.
  intros Hbody. rewrite forallb_app. apply andb_true_iff. split.
  - apply forallb_forall. intros c Hc. apply alphabet_7bit.
    by apply (proj1 (List.Forall_forall _ _) Hbody).
  - apply forallb_forall. intros c Hc. by apply repeat_spec in Hc as ->.
Qed.

Lemma pads_ok_repeat (npads : nat) :
  (npads <= 2)%nat -> pads_ok (repeat pad npads) = true.
Proof. destruct npads as [|[|[|npads]]]; [done|done|done|lia]. Qed.

(** Groups that are complete, or completed by the padding, decode. *)
Lemma a2b_base64_accepts (sx : list N) (npads count : nat) :
  (length sx mod 4 = 0 \/
   (length sx mod 4 <> 1 /\ 4 <= length sx mod 4 + npads))%nat ->
  exists bs, a2b_base64 sx npads count = Return bs.
Proof.
  induction sx as [|a|a b|a b c|a b c d sx IH] using list_ind4;
    cbn [length a2b_base64].
  - eauto.
  - change (1 mod 4)%nat with 1%nat. lia.
  - change (2 mod 4)%nat with 2%nat. intros Hfull.
    assert ((2 <=? npads)%nat = true) as -> by (apply Nat.leb_le; lia).
    eauto.
  - change (3 mod 4)%nat with 3%nat. intros Hfull.
    assert ((1 <=? npads)%nat = true) as -> by (apply Nat.leb_le; lia).
    eauto.
  - replace (S (S (S (S (length sx))))) with (length sx + 1 * 4)%nat by lia.
    rewrite Nat.Div0.mod_add. intros Hfull.
    destruct (IH Hfull) as [bs ->]. eauto.
Qed.

(** Data characters followed by at most two pad signs that fill the last
    group, or more, decode. *)
Lemma b64decode_padded (s : string) (body : list ascii) (npads : nat) :
  padded s body npads -> (npads <= 2)%nat ->
  (length body mod 4 = 0 \/
   (length body mod 4 <> 1 /\ 4 <= length body mod 4 + npads))%nat ->
  exists bs, b64decode_validate (PStr s) = Return bs.
Proof.
  intros [Heq Hbody] Hle Hfull. unfold b64decode_validate.
  rewrite Heq, padded_7bit by done.
  destruct (scan_app body _ Hbody (scan_pads npads)) as [Hlen Hrest].
  destruct (scan _) as [sx rest]. cbn [fst snd] in *. subst rest.
  rewrite pads_ok_repeat by done. rewrite repeat_length.
  apply a2b_base64_accepts. by rewrite Hlen.
Qed.

Lemma b64decode_surplus_padding (s : string) :
  surplus_padding s ->
  exists bs, b64decode_validate (PStr s) = Return bs.
Proof.
  intros (body & npads & Hshape & Hle & Hsurplus).
  apply (b64decode_padded s body npads Hshape Hle). lia.
Qed.

(** Pad signs appended to a string that decodes, within the two that
    validation allows, do not change what it decodes to. *)
Lemma list_ascii_of_string_app (s t : string) :
  list_ascii_of_string (s +:+ t) =
    (list_ascii_of_string s ++ list_ascii_of_string t)%list.
Proof. induction s as [|c s IH]; [done|]. simpl. by rewrite IH. Qed.

Lemma scan_app_data (body rest : list ascii) :
  Forall (fun c => is_Some (sextet_of_char c)) body ->
  scan rest = ([], rest) ->
  scan (body ++ rest) = (fst (scan body), rest).
Proof.
  intros Hbody Hrest. induction Hbody as [|c body [n Hc] _ IH].
  - cbn [app]. by rewrite Hrest.
  - cbn [app scan]. rewrite Hc, IH. by destruct (scan body).
Qed.

Lemma a2b_base64_more_pads (sx : list N) (npads npads' count count' : nat)
    (bs : list Byte.byte) :
  (npads <= npads')%nat ->
  a2b_base64 sx npads count = Return bs ->
  a2b_base64 sx npads' count' = Return bs.
Proof.
  intros Hle. revert bs.
  induction sx as [|a|a b|a b c|a b c d sx IH] using list_ind4;
    intros bs; cbn [a2b_base64].
  - done.
  - done.
  - destruct (2 <=? npads)%nat eqn:Hp; [|done]. apply Nat.leb_le in Hp.
    by assert ((2 <=? npads')%nat = true) as -> by (apply Nat.leb_le; lia).
  - destruct (1 <=? npads)%nat eqn:Hp; [|done]. apply Nat.leb_le in Hp.
    by assert ((1 <=? npads')%nat = true) as -> by (apply Nat.leb_le; lia).
  - destruct (a2b_base64 sx npads count) as [e|bs']; [done|].
    by rewrite (IH bs' eq_refl).
Qed.

Lemma b64decode_more_pads (s : string) (body : list ascii)
    (npads extra : nat) (bs : list Byte.byte) :
  padded s body npads -> (npads + extra <= 2)%nat ->
  b64decode_validate (PStr s) = Return bs ->
  b64decode_validate
    (PStr (s +:+ string_of_list_ascii (repeat pad extra))) = Return bs.
Proof.
  intros [Heq Hbody] Hle. unfold b64decode_validate.
  rewrite list_ascii_of_string_app, list_ascii_of_string_of_list_ascii.
  rewrite Heq, <- app_assoc, <- repeat_app.
  rewrite !padded_7bit by done.
  rewrite !scan_app_data by (done || apply scan_pads).
  rewrite !pads_ok_repeat by lia. rewrite !repeat_length.
  apply a2b_base64_more_pads. lia.
Qed.

Lemma Forall_alphabet (cs : list ascii) :
  forallb (fun c => bool_decide (is_Some (sextet_of_char c))) cs = true ->
  Forall (fun c => is_Some (sextet_of_char c)) cs.
Proof.
  intros Hcs. apply List.Forall_forall. intros c Hc.
  apply (bool_decide_eq_true _).
  exact (proj1 (forallb_forall _ _) Hcs c Hc).
Qed.

(** Incorrect padding is refused or in surplus, and nothing else is. *)
Lemma incorrect_padding_cases (s : string) :
  incorrect_padding s <-> refused_padding s \/ surplus_padding s.
Proof.
  unfold incorrect_padding, refused_padding, surplus_padding,
    canonical_padding.
  split.
  - intros (body & npads & Hshape & Hbad).
    pose proof (Nat.mod_upper_bound (length body) 4 ltac:(lia)) as Hlt.
    destruct (decide (2 < npads \/ length body mod 4 = 1 \/
                (length body mod 4 <> 0 /\
                 length body mod 4 + npads < 4))%nat) as [Hrefused|Hnot].
    + left. by exists body, npads.
    + right. exists body, npads. split; [done|]. lia.
  - intros [(body & npads & Hshape & Hbad)|(body & npads & Hshape & Hbad)];
      exists body, npads; (split; [done|]); lia.
Qed.

End Base64Facts.

(** ** The call monad *)

Lemma bind_return {A B} (t : list event) (a : A) (f : A -> M B) :
  ((t, Return a) ≫= f) = ((t ++ requests (f a))%list, outcome (f a)).
Proof. unfold mbind, M_bind, bind, requests, outcome. by destruct (f a). Qed.

Lemma bind_raise {A B} (t : list event) (e : exn) (f : A -> M B) :
  ((t, Raise e) ≫= f) = (t, Raise e).
Proof. reflexivity. Qed.

Lemma bind_lift {A B} (r : exn + A) (f : A -> M B) :
  (lift r ≫= f) = match r with Raise e => raise e | Return a => f a end.
Proof.
  destruct r as [e|a]; [reflexivity|].
  unfold lift. rewrite bind_return. by destruct (f a).
Qed.

Lemma bind_assoc {A B C} (m : M A) (f : A -> M B) (g : B -> M C) :
  ((m ≫= f) ≫= g) = (m ≫= fun a => f a ≫= g).
Proof.
  destruct m as [t [e|a]]; [reflexivity|].
  unfold mbind, M_bind, bind.
  destruct (f a) as [t1 [e|b]]; [reflexivity|].
  destruct (g b) as [t2 r]. by rewrite app_assoc.
Qed.

Lemma bind_ext {A B} (m : M A) (f g : A -> M B) :
  (forall a, f a = g a) -> (m ≫= f) = (m ≫= g).
Proof.
  intros Hfg. destruct m as [t [e|a]]; [reflexivity|].
  unfold mbind, M_bind, bind. by rewrite Hfg.
Qed.

Lemma surjective_run {A} (m : M A) : m = (requests m, outcome m).
Proof. by destruct m. Qed.

Section ClientFacts.

Context {PyObject BSPathType : Type}.
Context `{transport : !Transport, codec : !Codec PyObject,
          path_types : !PathType BSPathType}.

Lemma truthy_dict_lookup (d : gmap string pyval) (k : string) (v : pyval) :
  d !! k = Some v -> truthy (PDict d) = true.
Proof.
  intros Hk. simpl. apply negb_true_iff, bool_decide_eq_false.
  intros Hsz. apply map_size_empty_iff in Hsz. subst d.
  by rewrite lookup_empty in Hk.
Qed.

(** *** The methods are the composition of their steps *)

Lemma get_bandstructure_from_task_id_run (task_id : pyval) :
  get_bandstructure_from_task_id task_id =
  ([object_query task_id], fetched task_id).
Proof.
  unfold get_bandstructure_from_task_id, _query_resource, fetched, object_query.
  destruct (query_resource_response _ _ _ _ _) as [e|result];
    [reflexivity|].
  rewrite bind_return. by destruct (is_not_None _).
Qed.

Lemma get_dos_from_task_id_run (task_id : pyval) :
  get_dos_from_task_id task_id = ([object_query task_id], fetched task_id).
Proof. apply get_bandstructure_from_task_id_run. Qed.

Lemma decode_steps (first : pyval) :
  (b64_bytes ← lift (Base64.b64decode_validate first);
   packed_bytes ← lift (zlib_decompress b64_bytes);
   json_data ← lift (msgpack_unpackb packed_bytes);
   payload ← lift (py_getitem json_data (KStr "data"));
   data ← lift (process_decoded payload);
   mret data) = lift (decode (PyObject := PyObject) first).
Proof.
  unfold decode. rewrite bind_lift.
  destruct (Base64.b64decode_validate first) as [e|b]; [reflexivity|].
  rewrite bind_lift. destruct (zlib_decompress b) as [e|p]; [reflexivity|].
  rewrite bind_lift. destruct (msgpack_unpackb p) as [e|j]; [reflexivity|].
  rewrite bind_lift. destruct (py_getitem j _) as [e|d]; [reflexivity|].
  rewrite bind_lift. by destruct (process_decoded d).
Qed.

Lemma interpret_steps (missing : string) (obj : pyval) :
  (if truthy obj then
     first ← lift (py_getitem obj (KInt 0));
     b64_bytes ← lift (Base64.b64decode_validate first);
     packed_bytes ← lift (zlib_decompress b64_bytes);
     json_data ← lift (msgpack_unpackb packed_bytes);
     payload ← lift (py_getitem json_data (KStr "data"));
     data ← lift (process_decoded payload);
     mret data
   else raise (MPRestError missing)) =
  lift (interpret (PyObject := PyObject) missing obj).
Proof.
  unfold interpret. destruct (truthy obj); [|reflexivity].
  rewrite bind_lift. destruct (py_getitem obj _) as [e|first];
    [reflexivity|]. apply decode_steps.
Qed.

Lemma get_bandstructure_from_material_id_steps mid (pt : BSPathType) lm :
  get_bandstructure_from_material_id mid pt lm =
  (task ← resolve_bandstructure_task mid pt lm;
   obj ← get_bandstructure_from_task_id task;
   lift (interpret "No band structure object found." obj)).
Proof.
  unfold get_bandstructure_from_material_id, resolve_bandstructure_task.
  apply bind_ext; intros task. apply bind_ext; intros obj.
  apply interpret_steps.
Qed.

Lemma get_dos_from_material_id_steps mid :
  get_dos_from_material_id mid =
  (task ← resolve_dos_task mid;
   obj ← get_dos_from_task_id task;
   lift (interpret (PyObject := PyObject)
           "No density of states object found." obj)).
Proof.
  unfold get_dos_from_material_id, resolve_dos_task.
  rewrite bind_assoc. apply bind_ext; intros doc. cbv zeta.
  rewrite bind_assoc. apply bind_ext; intros dos_field.
  apply bind_ext; intros task. apply bind_ext; intros obj.
  apply interpret_steps.
Qed.

(** A method that found the task identifier sends the object query for
    it and returns what [interpret] makes of the answer; one that did
    not stops after the document request. *)
Lemma after_resolution (resolve : M pyval) (missing : string)
    (k := fun task : pyval =>
            obj ← get_bandstructure_from_task_id task;
            lift (interpret (PyObject := PyObject) missing obj)) :
  (resolve ≫= k) =
  match outcome resolve with
  | Raise e => (requests resolve, Raise e)
  | Return task =>
      ((requests resolve ++ [object_query task])%list,
       match fetched task with
       | Raise e => Raise e
       | Return obj => interpret missing obj
       end)
  end.
Proof.
  destruct resolve as [t [e|task]]; [reflexivity|].
  rewrite bind_return. unfold requests, outcome, k; simpl.
  rewrite get_bandstructure_from_task_id_run.
  destruct (fetched task) as [e|obj]; [reflexivity|].
  rewrite bind_return. reflexivity.
Qed.

Lemma get_bandstructure_from_material_id_run mid (pt : BSPathType) lm
    (resolve := resolve_bandstructure_task mid pt lm) :
  get_bandstructure_from_material_id mid pt lm =
  match outcome resolve with
  | Raise e => (requests resolve, Raise e)
  | Return task =>
      ((requests resolve ++ [object_query task])%list,
       match fetched task with
       | Raise e => Raise e
       | Return obj => interpret "No band structure object found." obj
       end)
  end.
Proof.
  rewrite get_bandstructure_from_material_id_steps. apply after_resolution.
Qed.

Lemma get_dos_from_material_id_run mid (resolve := resolve_dos_task mid) :
  get_dos_from_material_id mid =
  match outcome resolve with
  | Raise e => (requests resolve, Raise e)
  | Return task =>
      ((requests resolve ++ [object_query task])%list,
       match fetched task with
       | Raise e => Raise e
       | Return obj =>
           interpret (PyObject := PyObject)
             "No density of states object found." obj
       end)
  end.
Proof.
  rewrite get_dos_from_material_id_steps. apply after_resolution.
Qed.

(** Resolution sends exactly one request, for the one field it reads. *)
Lemma resolve_bandstructure_task_requests mid (pt : BSPathType) lm :
  requests (resolve_bandstructure_task mid pt lm) =
  [EvGetDataById mid [if lm then "bandstructure" else "dos"]].
Proof.
  unfold resolve_bandstructure_task, get_data_by_id, requests.
  unfold mbind, M_bind, bind, lift, raise.
  destruct lm; simpl; repeat case_match; simplify_eq; reflexivity.
Qed.

Lemma resolve_dos_task_requests mid :
  requests (resolve_dos_task mid) = [EvGetDataById mid ["dos"]].
Proof.
  unfold resolve_dos_task, get_data_by_id, requests.
  unfold mbind, M_bind, bind, lift, raise.
  simpl; repeat case_match; simplify_eq; reflexivity.
Qed.

End ClientFacts.

(** ** Task resolution *)

Section Resolution.

Context {PyObject BSPathType : Type}.
Context `{transport : !Transport, codec : !Codec PyObject,
          path_types : !PathType BSPathType}.

Lemma resolve_line_mode_found mid (pt : BSPathType) doc bs entry task :
  get_data_by_id_response mid ["bandstructure"] = Return doc ->
  bandstructure doc = Some bs ->
  bs !! value pt = Some (PDict entry) ->
  entry !! "task_id" = Some task ->
  resolve_bandstructure_task mid pt true =
  ([EvGetDataById mid ["bandstructure"]], Return task).
Proof.
  intros Hdoc Hbs Hentry Htask.
  unfold resolve_bandstructure_task, get_data_by_id.
  rewrite Hdoc, bind_return, Hbs. unfold dict_get. rewrite Hentry.
  simpl default. rewrite (truthy_dict_lookup _ _ _ Htask).
  rewrite bind_lift. simpl py_getitem. rewrite Hentry.
  unfold lift. simpl. by rewrite Htask.
Qed.

Lemma resolve_line_mode_falsy mid (pt : BSPathType) doc bs :
  get_data_by_id_response mid ["bandstructure"] = Return doc ->
  bandstructure doc = Some bs ->
  truthy (dict_get bs (value pt)) = false ->
  resolve_bandstructure_task mid pt true =
  ([EvGetDataById mid ["bandstructure"]],
   Raise (MPRestError ("No " +:+ value pt +:+
            " band structure data found for " +:+ mid))).
Proof.
  intros Hdoc Hbs Hfalsy.
  unfold resolve_bandstructure_task, get_data_by_id.
  by rewrite Hdoc, bind_return, Hbs, Hfalsy.
Qed.

(** C2. In line mode, a [bandstructure] mapping that has the requested
    path type with a [task_id] makes the method send the object query
    for exactly that task identifier; a mapping without the path type
    makes it raise the "No <path type> band structure data found" error
    after the document request alone. *)
Theorem line_mode_resolution mid (pt : BSPathType) doc bs :
  get_data_by_id_response mid ["bandstructure"] = Return doc ->
  bandstructure doc = Some bs ->
  (forall entry task,
      bs !! value pt = Some (PDict entry) ->
      entry !! "task_id" = Some task ->
      outcome (resolve_bandstructure_task mid pt true) = Return task /\
      get_bandstructure_from_material_id mid pt true =
        ([EvGetDataById mid ["bandstructure"]; object_query task],
         match fetched task with
         | Raise e => Raise e
         | Return obj => interpret "No band structure object found." obj
         end)) /\
  (bs !! value pt = None ->
      get_bandstructure_from_material_id mid pt true =
        ([EvGetDataById mid ["bandstructure"]],
         Raise (MPRestError ("No " +:+ value pt +:+
                  " band structure data found for " +:+ mid)))).
Proof.
  intros Hdoc Hbs. split.
  - intros entry task Hentry Htask.
    rewrite get_bandstructure_from_material_id_run.
    rewrite (resolve_line_mode_found _ _ _ _ _ _ Hdoc Hbs Hentry Htask).
    split; reflexivity.
  - intros Habsent.
    rewrite get_bandstructure_from_material_id_run.
    rewrite (resolve_line_mode_falsy _ _ _ _ Hdoc Hbs); [reflexivity|].
    unfold dict_get. by rewrite Habsent.
Qed.

(** C7. With [line_mode] true and [bandstructure = null] the call
    raises an error whose message carries the path type and the material
    id, and the only request it has sent is the document request: the
    object store is never queried. *)
Theorem null_bandstructure_fails_before_fetch mid (pt : BSPathType) doc :
  get_data_by_id_response mid ["bandstructure"] = Return doc ->
  bandstructure doc = None ->
  outcome (get_bandstructure_from_material_id mid pt true) =
    Raise (MPRestError ("No " +:+ value pt +:+
             " band structure data found for " +:+ mid)) /\
  requests (get_bandstructure_from_material_id mid pt true) =
    [EvGetDataById mid ["bandstructure"]] /\
  (forall criteria suburl use_document_model num_chunks chunk_size,
      ~ In (EvQueryResource criteria suburl use_document_model
              num_chunks chunk_size)
           (requests (get_bandstructure_from_material_id mid pt true))).
Proof.
  intros Hdoc Hnull.
  assert (Hrun : get_bandstructure_from_material_id mid pt true =
                 ([EvGetDataById mid ["bandstructure"]],
                  Raise (MPRestError ("No " +:+ value pt +:+
                           " band structure data found for " +:+ mid)))).
  { rewrite get_bandstructure_from_material_id_run.
    unfold resolve_bandstructure_task, get_data_by_id.
    by rewrite Hdoc, bind_return, Hnull. }
  rewrite Hrun. repeat split.
  intros criteria suburl udm nc cs [Heq|[]]. discriminate Heq.
Qed.

(** C9. In line mode the entry for the path type is tested for
    truthiness: an entry that is present but falsy (an empty mapping,
    [None]) raises the error of an absent key, and no [task_id] is read
    from it. *)
Theorem falsy_path_entry_is_absent mid (pt : BSPathType) doc bs entry :
  get_data_by_id_response mid ["bandstructure"] = Return doc ->
  bandstructure doc = Some bs ->
  bs !! value pt = Some entry ->
  truthy entry = false ->
  get_bandstructure_from_material_id mid pt true =
    ([EvGetDataById mid ["bandstructure"]],
     Raise (MPRestError ("No " +:+ value pt +:+
              " band structure data found for " +:+ mid))).
Proof.
  intros Hdoc Hbs Hentry Hfalsy.
  rewrite get_bandstructure_from_material_id_run.
  rewrite (resolve_line_mode_falsy _ _ _ _ Hdoc Hbs); [reflexivity|].
  unfold dict_get. by rewrite Hentry.
Qed.

Lemma resolve_uniform_found mid (pt : BSPathType) doc d total one task :
  get_data_by_id_response mid ["dos"] = Return doc ->
  dos doc = Some d ->
  d !! "total" = Some (PDict total) ->
  total !! "1" = Some (PDict one) ->
  one !! "task_id" = Some task ->
  resolve_bandstructure_task mid pt false =
  ([EvGetDataById mid ["dos"]], Return task).
Proof.
  intros Hdoc Hdos Htotal Hone Htask.
  unfold resolve_bandstructure_task, get_data_by_id.
  rewrite Hdoc, bind_return, Hdos. unfold dict_get. rewrite Htotal.
  simpl default. rewrite (truthy_dict_lookup _ _ _ Hone).
  rewrite bind_lift. simpl py_getitem. rewrite Htotal.
  rewrite bind_lift. simpl py_getitem. rewrite Hone.
  unfold lift. simpl. by rewrite Htask.
Qed.

Lemma resolve_uniform_falsy mid (pt : BSPathType) doc :
  get_data_by_id_response mid ["dos"] = Return doc ->
  match dos doc with
  | None => True
  | Some d => truthy (dict_get d "total") = false
  end ->
  resolve_bandstructure_task mid pt false =
  ([EvGetDataById mid ["dos"]],
   Raise (MPRestError ("No uniform band structure data found for " +:+ mid))).
Proof.
  intros Hdoc Hfalsy.
  unfold resolve_bandstructure_task, get_data_by_id.
  rewrite Hdoc, bind_return. destruct (dos doc) as [d|]; [|reflexivity].
  by rewrite Hfalsy.
Qed.

(** C3. With [line_mode] false the method asks for the [dos] field of the
    document.  It raises "No uniform band structure data found for
    <material id>" when that field is null or has no [total] entry, and
    when [total["1"]["task_id"]] exists, that is the task identifier it
    fetches. *)
Theorem uniform_mode_reads_dos mid (pt : BSPathType) doc :
  get_data_by_id_response mid ["dos"] = Return doc ->
  requests (resolve_bandstructure_task mid pt false) =
    [EvGetDataById mid ["dos"]] /\
  (dos doc = None \/ (exists d, dos doc = Some d /\ d !! "total" = None) ->
     get_bandstructure_from_material_id mid pt false =
       ([EvGetDataById mid ["dos"]],
        Raise (MPRestError
                 ("No uniform band structure data found for " +:+ mid)))) /\
  (forall d total one task,
      dos doc = Some d ->
      d !! "total" = Some (PDict total) ->
      total !! "1" = Some (PDict one) ->
      one !! "task_id" = Some task ->
      outcome (resolve_bandstructure_task mid pt false) = Return task /\
      get_bandstructure_from_material_id mid pt false =
        ([EvGetDataById mid ["dos"]; object_query task],
         match fetched task with
         | Raise e => Raise e
         | Return obj => interpret "No band structure object found." obj
         end)).
Proof.
  intros Hdoc. split; [apply resolve_bandstructure_task_requests|]. split.
  - intros Hmissing.
    rewrite get_bandstructure_from_material_id_run.
    rewrite (resolve_uniform_falsy _ _ _ Hdoc); [reflexivity|].
    destruct Hmissing as [Hnull|(d & Hd & Htotal)].
    + by rewrite Hnull.
    + rewrite Hd. unfold dict_get. by rewrite Htotal.
  - intros d total one task Hd Htotal Hone Htask.
    rewrite get_bandstructure_from_material_id_run.
    rewrite (resolve_uniform_found _ _ _ _ _ _ _ Hdoc Hd Htotal Hone Htask).
    split; reflexivity.
Qed.

Lemma resolve_dos_found mid doc d total one task :
  get_data_by_id_response mid ["dos"] = Return doc ->
  dos doc = Some d ->
  d !! "total" = Some (PDict total) ->
  total !! "1" = Some (PDict one) ->
  one !! "task_id" = Some task ->
  resolve_dos_task mid = ([EvGetDataById mid ["dos"]], Return task).
Proof.
  intros Hdoc Hdos Htotal Hone Htask.
  unfold resolve_dos_task, get_data_by_id.
  rewrite Hdoc, bind_return. cbv zeta.
  rewrite bind_lift. unfold doc_dict. simpl py_getitem.
  rewrite lookup_insert_ne by done. rewrite lookup_singleton_eq.
  rewrite Hdos. simpl opt_dict. rewrite (truthy_dict_lookup _ _ _ Htotal).
  rewrite bind_lift. simpl py_getitem. rewrite Htotal.
  rewrite bind_lift. simpl py_getitem. rewrite Hone.
  unfold lift. simpl. by rewrite Htask.
Qed.

(** C4. [get_dos_from_material_id]: when [dos.total["1"].task_id]
    exists it is the task identifier fetched; [dos = null] raises "No
    density of states data found for <material id>"; a [total] without
    the key ["1"] raises [KeyError('1')], the malformed-document failure,
    and no object is fetched under some default identifier. *)
Theorem dos_resolution mid doc :
  get_data_by_id_response mid ["dos"] = Return doc ->
  (forall d total one task,
      dos doc = Some d ->
      d !! "total" = Some (PDict total) ->
      total !! "1" = Some (PDict one) ->
      one !! "task_id" = Some task ->
      outcome (resolve_dos_task mid) = Return task /\
      get_dos_from_material_id (PyObject := PyObject) mid =
        ([EvGetDataById mid ["dos"]; object_query task],
         match fetched task with
         | Raise e => Raise e
         | Return obj => interpret "No density of states object found." obj
         end)) /\
  (dos doc = None ->
      get_dos_from_material_id (PyObject := PyObject) mid =
        ([EvGetDataById mid ["dos"]],
         Raise (MPRestError
                  ("No density of states data found for " +:+ mid)))) /\
  (forall d total,
      dos doc = Some d ->
      d !! "total" = Some (PDict total) ->
      total !! "1" = None ->
      get_dos_from_material_id (PyObject := PyObject) mid =
        ([EvGetDataById mid ["dos"]], Raise (KeyError (KStr "1")))).
Proof.
  intros Hdoc. split; [|split].
  - intros d total one task Hd Htotal Hone Htask.
    rewrite get_dos_from_material_id_run.
    rewrite (resolve_dos_found _ _ _ _ _ _ Hdoc Hd Htotal Hone Htask).
    split; reflexivity.
  - intros Hnull. rewrite get_dos_from_material_id_run.
    unfold resolve_dos_task, get_data_by_id.
    rewrite Hdoc, bind_return. cbv zeta.
    rewrite bind_lift. unfold doc_dict. simpl py_getitem.
    rewrite lookup_insert_ne by done. rewrite lookup_singleton_eq.
    by rewrite Hnull.
  - intros d total Hd Htotal Hone. rewrite get_dos_from_material_id_run.
    unfold resolve_dos_task, get_data_by_id.
    rewrite Hdoc, bind_return. cbv zeta.
    rewrite bind_lift. unfold doc_dict. simpl py_getitem.
    rewrite lookup_insert_ne by done. rewrite lookup_singleton_eq.
    rewrite Hd. simpl opt_dict. rewrite (truthy_dict_lookup _ _ _ Htotal).
    rewrite bind_lift. simpl py_getitem. rewrite Htotal.
    rewrite bind_lift. simpl py_getitem. by rewrite Hone.
Qed.

End Resolution.

(** ** Fetching the object *)

Lemma length_append (s1 s2 : string) :
  String.length (s1 +:+ s2) = (String.length s1 + String.length s2)%nat.
Proof. induction s1 as [|c s1 IH]; simpl; [reflexivity|]. by rewrite IH. Qed.

Lemma py_getitem_not_MPRestError (x : pyval) (k : pykey) (msg : string) :
  py_getitem x k <> Raise (MPRestError msg).
Proof.
  unfold py_getitem. repeat case_match; discriminate.
Qed.

Section Fetch.

Context {PyObject BSPathType : Type}.
Context `{transport : !Transport, codec : !Codec PyObject,
          path_types : !PathType BSPathType}.

Lemma fetched_value task result v :
  query_resource_response
    {[ "task_id" := task; "_all_fields" := PBool true ]} "object" false 1 1
    = Return result ->
  result !! "data" = Some v -> v <> PNone ->
  fetched task = Return v.
Proof.
  intros Hresp Hdata Hv. unfold fetched, dict_get. rewrite Hresp, Hdata.
  simpl. rewrite Hdata. by destruct v.
Qed.

(** The resolver's own failures never carry the fetcher's message. *)
Lemma resolve_bandstructure_task_not_no_object mid (pt : BSPathType)
    (lm : bool) doc :
  get_data_by_id_response mid [if lm then "bandstructure" else "dos"]
    = Return doc ->
  outcome (resolve_bandstructure_task mid pt lm) <>
    Raise (MPRestError "No object found").
Proof.
  intros Hdoc.
  unfold resolve_bandstructure_task, get_data_by_id, outcome.
  unfold mbind, M_bind, bind, lift, raise.
  destruct lm; rewrite Hdoc; simpl; repeat case_match; simplify_eq; simpl;
    first [ discriminate | apply py_getitem_not_MPRestError | idtac ].
  all: try (intros Heq; injection Heq as ->;
            eapply py_getitem_not_MPRestError; eassumption).
  all: intros Heq; injection Heq as Heq;
    apply (f_equal String.length) in Heq;
    rewrite !length_append in Heq; simpl in Heq; lia.
Qed.

Lemma resolve_dos_task_not_no_object mid doc :
  get_data_by_id_response mid ["dos"] = Return doc ->
  outcome (resolve_dos_task mid) <> Raise (MPRestError "No object found").
Proof.
  intros Hdoc.
  unfold resolve_dos_task, get_data_by_id, outcome.
  unfold mbind, M_bind, bind, lift, raise.
  rewrite Hdoc; simpl; repeat case_match; simplify_eq; simpl;
    first [ discriminate | apply py_getitem_not_MPRestError | idtac ].
  all: try (intros Heq; injection Heq as ->;
            eapply py_getitem_not_MPRestError; eassumption).
Qed.

(** C5. Given the store's response body, both [..._from_task_id] methods
    raise [MPRestError("No object found")] exactly when the body has no
    ["data"] field or the field is [None], and return the field's value
    otherwise.  The failure is told apart from a failed resolution: on a
    delivered document, neither resolver ever raises that error. *)
Theorem object_absence task result :
  query_resource_response
    {[ "task_id" := task; "_all_fields" := PBool true ]} "object" false 1 1
    = Return result ->
  (outcome (get_bandstructure_from_task_id task) =
     Raise (MPRestError "No object found") <->
   result !! "data" = None \/ result !! "data" = Some PNone) /\
  (forall v, result !! "data" = Some v -> v <> PNone ->
             outcome (get_bandstructure_from_task_id task) = Return v) /\
  get_dos_from_task_id task = get_bandstructure_from_task_id task /\
  (forall mid (pt : BSPathType) (lm : bool) doc,
      get_data_by_id_response mid [if lm then "bandstructure" else "dos"]
        = Return doc ->
      outcome (resolve_bandstructure_task mid pt lm) <>
        Raise (MPRestError "No object found")) /\
  (forall mid doc,
      get_data_by_id_response mid ["dos"] = Return doc ->
      outcome (resolve_dos_task mid) <>
        Raise (MPRestError "No object found")).
Proof.
  intros Hresp. rewrite get_dos_from_task_id_run.
  rewrite get_bandstructure_from_task_id_run.
  unfold outcome at 1 2; simpl snd.
  split; [split|split; [|split; [|split]]].
  - intros Hraise. destruct (result !! "data") as [v|] eqn:Hdata; [|by left].
    destruct v; try by right.
    all: rewrite (fetched_value _ _ _ Hresp Hdata) in Hraise; done.
  - intros Hnone. unfold fetched, dict_get. rewrite Hresp.
    by destruct Hnone as [-> | ->].
  - intros v Hdata Hv. by apply fetched_value with result.
  - reflexivity.
  - intros mid pt lm doc. apply resolve_bandstructure_task_not_no_object.
  - intros mid doc. apply resolve_dos_task_not_no_object.
Qed.

(** C10. A ["data"] field that is not [None] but falsy, such as an empty
    list, passes the fetchers unharmed; the [..._from_material_id]
    methods then stop at their own guard, with "No band structure object
    found." and "No density of states object found." respectively,
    neither of which is the fetchers' "No object found". *)
Theorem falsy_object_second_guard task result v :
  query_resource_response
    {[ "task_id" := task; "_all_fields" := PBool true ]} "object" false 1 1
    = Return result ->
  result !! "data" = Some v -> v <> PNone -> truthy v = false ->
  get_bandstructure_from_task_id task = ([object_query task], Return v) /\
  get_dos_from_task_id task = ([object_query task], Return v) /\
  (forall mid (pt : BSPathType) lm,
      outcome (resolve_bandstructure_task mid pt lm) = Return task ->
      outcome (get_bandstructure_from_material_id mid pt lm) =
        Raise (MPRestError "No band structure object found.")) /\
  (forall mid,
      outcome (resolve_dos_task mid) = Return task ->
      outcome (get_dos_from_material_id (PyObject := PyObject) mid) =
        Raise (MPRestError "No density of states object found.")) /\
  MPRestError "No band structure object found." <>
    MPRestError "No object found" /\
  MPRestError "No density of states object found." <>
    MPRestError "No object found".
Proof.
  intros Hresp Hdata Hv Hfalsy.
  pose proof (fetched_value _ _ _ Hresp Hdata Hv) as Hfetched.
  rewrite get_dos_from_task_id_run, get_bandstructure_from_task_id_run.
  rewrite Hfetched.
  split; [reflexivity|]. split; [reflexivity|].
  split; [|split; [|split; discriminate]].
  - intros mid pt lm Hres. rewrite get_bandstructure_from_material_id_run.
    rewrite Hres, Hfetched. unfold interpret. by rewrite Hfalsy.
  - intros mid Hres. rewrite get_dos_from_material_id_run.
    rewrite Hres, Hfetched. unfold interpret. by rewrite Hfalsy.
Qed.

End Fetch.

(** ** Decoding *)

Section Decoding.

Context {PyObject BSPathType : Type}.
Context `{transport : !Transport, codec : !Codec PyObject,
          path_types : !PathType BSPathType}.

Lemma first_element_truthy (obj first : pyval) :
  py_getitem obj (KInt 0) = Return first -> truthy obj = true.
Proof.
  destruct obj as [| | | |s|l|d]; try discriminate.
  - by destruct s.
  - by destruct l.
Qed.

Lemma interpret_first (missing : string) (obj first : pyval) :
  py_getitem obj (KInt 0) = Return first ->
  interpret (PyObject := PyObject) missing obj = decode first.
Proof.
  intros Hfirst. unfold interpret.
  by rewrite (first_element_truthy _ _ Hfirst), Hfirst.
Qed.

(** Once the task is resolved and the object fetched, either method
    returns what [decode] makes of the object's first element. *)
Lemma get_bandstructure_from_material_id_decodes mid (pt : BSPathType) lm
    task obj first :
  outcome (resolve_bandstructure_task mid pt lm) = Return task ->
  fetched task = Return obj ->
  py_getitem obj (KInt 0) = Return first ->
  outcome (get_bandstructure_from_material_id mid pt lm) = decode first.
Proof.
  intros Hres Hobj Hfirst. rewrite get_bandstructure_from_material_id_run.
  rewrite Hres, Hobj. by apply interpret_first.
Qed.

Lemma get_dos_from_material_id_decodes mid task obj first :
  outcome (resolve_dos_task mid) = Return task ->
  fetched task = Return obj ->
  py_getitem obj (KInt 0) = Return first ->
  outcome (get_dos_from_material_id (PyObject := PyObject) mid)
    = decode first.
Proof.
  intros Hres Hobj Hfirst. rewrite get_dos_from_material_id_run.
  rewrite Hres, Hobj. by apply interpret_first.
Qed.

(** C6.  base64 is decoded strictly, except for pad signs in surplus.
    A stored string with a character outside the alphabet, or with padding of the refused kind (more than two pad signs, or a last
    group that the pad signs leave incomplete), makes the base64 stage
    raise an encoding error, and with it the whole decoding and both
    [..._from_material_id] methods.  Incorrect padding is of the refused
    kind or in surplus, one or two pad signs more than the last group
    needs; a string with surplus padding is not refused: the base64 stage
    returns, and pad signs appended to a string that decodes, up to two
    in all, leave the decoded bytes and the decoded object as they were.
    A base64 stage that returns has turned every character before the
    padding into output, three bytes for four characters, so nothing is
    cut off. *)
Theorem strict_base64_decoding (s : string) :
  (has_invalid_char s \/ refused_padding s ->
   exists e,
     encoding_error e /\
     Base64.b64decode_validate (PStr s) = Raise e /\
     decode (PyObject := PyObject) (PStr s) = Raise e /\
     (forall mid (pt : BSPathType) lm task obj,
         outcome (resolve_bandstructure_task mid pt lm) = Return task ->
         fetched task = Return obj ->
         py_getitem obj (KInt 0) = Return (PStr s) ->
         outcome (get_bandstructure_from_material_id mid pt lm) = Raise e) /\
     (forall mid task obj,
         outcome (resolve_dos_task mid) = Return task ->
         fetched task = Return obj ->
         py_getitem obj (KInt 0) = Return (PStr s) ->
         outcome (get_dos_from_material_id (PyObject := PyObject) mid)
           = Raise e)) /\
  (incorrect_padding s <-> refused_padding s \/ surplus_padding s) /\
  (surplus_padding s ->
   exists bs, Base64.b64decode_validate (PStr s) = Return bs) /\
  (forall body npads extra bs,
      padded s body npads -> (npads + extra <= 2)%nat ->
      Base64.b64decode_validate (PStr s) = Return bs ->
      let s' := s +:+ string_of_list_ascii (repeat Base64.pad extra) in
      Base64.b64decode_validate (PStr s') = Return bs /\
      decode (PyObject := PyObject) (PStr s') = decode (PStr s)) /\
  (forall bs,
      Base64.b64decode_validate (PStr s) = Return bs ->
      exists sx npads,
        list_ascii_of_string s =
          (map Base64.char_of_sextet sx ++ repeat Base64.pad npads)%list /\
        (npads <= 2)%nat /\ length bs = (3 * length sx / 4)%nat).
Proof.
  split; [|split; [apply Base64Facts.incorrect_padding_cases|];
           split; [apply Base64Facts.b64decode_surplus_padding|];
           split; [|apply Base64Facts.b64decode_complete]].
  - intros Hbad.
    assert (exists e, encoding_error e /\
                      Base64.b64decode_validate (PStr s) = Raise e)
      as (e & He & Hraise).
    { destruct Hbad; [by apply Base64Facts.b64decode_invalid_char|].
      by apply Base64Facts.b64decode_refused_padding. }
    assert (Hdecode : decode (PyObject := PyObject) (PStr s) = Raise e).
    { unfold decode. by rewrite Hraise. }
    exists e. split; [exact He|]. split; [exact Hraise|].
    split; [exact Hdecode|]. split.
    + intros mid pt lm task obj Hres Hobj Hfirst.
      by rewrite (get_bandstructure_from_material_id_decodes
                    _ _ _ _ _ _ Hres Hobj Hfirst).
    + intros mid task obj Hres Hobj Hfirst.
      by rewrite (get_dos_from_material_id_decodes _ _ _ _ Hres Hobj Hfirst).
  - intros body npads extra bs Hshape Hle Hdec s'.
    pose proof (Base64Facts.b64decode_more_pads
                  s body npads extra bs Hshape Hle Hdec) as Hdec'.
    split; [exact Hdec'|]. unfold decode. subst s'. by rewrite Hdec', Hdec.
Qed.

(** C8. Decoding is all or nothing.  The exception of the first stage
    that fails (base64, zlib, msgpack, the ["data"] lookup, monty) is the
    outcome of the whole decoding; a value comes out only when every
    stage has succeeded, and it is the last stage's value; and the
    outcome of either [..._from_material_id] method on a fetched object
    is that of the decoding of its first element. *)
Theorem decode_all_or_nothing (first : pyval) :
  (forall e, Base64.b64decode_validate first = Raise e ->
             decode (PyObject := PyObject) first = Raise e) /\
  (forall b64_bytes e,
      Base64.b64decode_validate first = Return b64_bytes ->
      zlib_decompress b64_bytes = Raise e ->
      decode (PyObject := PyObject) first = Raise e) /\
  (forall b64_bytes packed_bytes e,
      Base64.b64decode_validate first = Return b64_bytes ->
      zlib_decompress b64_bytes = Return packed_bytes ->
      msgpack_unpackb packed_bytes = Raise e ->
      decode (PyObject := PyObject) first = Raise e) /\
  (forall b64_bytes packed_bytes json_data e,
      Base64.b64decode_validate first = Return b64_bytes ->
      zlib_decompress b64_bytes = Return packed_bytes ->
      msgpack_unpackb packed_bytes = Return json_data ->
      py_getitem json_data (KStr "data") = Raise e ->
      decode (PyObject := PyObject) first = Raise e) /\
  (forall b64_bytes packed_bytes json_data payload e,
      Base64.b64decode_validate first = Return b64_bytes ->
      zlib_decompress b64_bytes = Return packed_bytes ->
      msgpack_unpackb packed_bytes = Return json_data ->
      py_getitem json_data (KStr "data") = Return payload ->
      process_decoded payload = Raise e ->
      decode first = Raise e) /\
  (forall data : PyObject,
      decode first = Return data ->
      exists b64_bytes packed_bytes json_data payload,
        Base64.b64decode_validate first = Return b64_bytes /\
        zlib_decompress b64_bytes = Return packed_bytes /\
        msgpack_unpackb packed_bytes = Return json_data /\
        py_getitem json_data (KStr "data") = Return payload /\
        process_decoded payload = Return data) /\
  (forall mid (pt : BSPathType) lm task obj,
      outcome (resolve_bandstructure_task mid pt lm) = Return task ->
      fetched task = Return obj ->
      py_getitem obj (KInt 0) = Return first ->
      outcome (get_bandstructure_from_material_id mid pt lm)
        = decode first) /\
  (forall mid task obj,
      outcome (resolve_dos_task mid) = Return task ->
      fetched task = Return obj ->
      py_getitem obj (KInt 0) = Return first ->
      outcome (get_dos_from_material_id (PyObject := PyObject) mid)
        = decode first).
Proof.
  unfold decode. repeat apply conj.
  - by intros e ->.
  - by intros b e -> ->.
  - by intros b p e -> -> ->.
  - by intros b p j e -> -> -> ->.
  - by intros b p j d e -> -> -> ->.
  - intros data.
    destruct (Base64.b64decode_validate first) as [e|b]; [done|].
    destruct (zlib_decompress b) as [e|p] eqn:Hp; [done|].
    destruct (msgpack_unpackb p) as [e|j] eqn:Hj; [done|].
    destruct (py_getitem j (KStr "data")) as [e|d] eqn:Hd; [done|].
    intros Hdata. exists b, p, j, d. auto.
  - intros mid pt lm task obj.
    apply get_bandstructure_from_material_id_decodes.
  - intros mid task obj. apply get_dos_from_material_id_decodes.
Qed.

Context `{encoder : !Encoder PyObject}.

Lemma decode_encode (o : PyObject) :
  valid_object o -> decode (PStr (encode o)) = Return o.
Proof.
  intros (Hzlib & Hmsgpack & Hmonty). unfold decode, encode.
  rewrite Base64Facts.b64decode_b64encode, Hzlib, Hmsgpack.
  cbn [py_getitem]. by rewrite lookup_singleton_eq.
Qed.

(** C1. The round trip.  For a valid object [O], decoding
    [encode(O) = base64(zlib(pack({"data": O})))] gives back [O]; so a
    store that answers with [encode(O)] as the first element of its
    ["data"] array makes [get_bandstructure_from_material_id] and
    [get_dos_from_material_id] return [O]. *)
Theorem decode_encode_roundtrip (o : PyObject) :
  valid_object o ->
  decode (PStr (encode o)) = Return o /\
  (forall mid (pt : BSPathType) lm task result more,
      outcome (resolve_bandstructure_task mid pt lm) = Return task ->
      query_resource_response
        {[ "task_id" := task; "_all_fields" := PBool true ]}
        "object" false 1 1 = Return result ->
      result !! "data" = Some (PList (PStr (encode o) :: more)) ->
      outcome (get_bandstructure_from_material_id mid pt lm) = Return o) /\
  (forall mid task result more,
      outcome (resolve_dos_task mid) = Return task ->
      query_resource_response
        {[ "task_id" := task; "_all_fields" := PBool true ]}
        "object" false 1 1 = Return result ->
      result !! "data" = Some (PList (PStr (encode o) :: more)) ->
      outcome (get_dos_from_material_id mid) = Return o).
Proof.
  intros Hvalid. pose proof (decode_encode o Hvalid) as Hdecode.
  split; [exact Hdecode|]. split.
  - intros mid pt lm task result more Hres Hresp Hdata.
    rewrite <- Hdecode.
    apply get_bandstructure_from_material_id_decodes
      with task (PList (PStr (encode o) :: more));
      [exact Hres| |reflexivity].
    by apply (fetched_value _ _ _ Hresp Hdata).
  - intros mid task result more Hres Hresp Hdata.
    rewrite <- Hdecode.
    apply get_dos_from_material_id_decodes
      with task (PList (PStr (encode o) :: more));
      [exact Hres| |reflexivity].
    by apply (fetched_value _ _ _ Hresp Hdata).
Qed.

End Decoding.

(** ** The statements on the in-memory store *)

Section Examples.

Import Demo.

(** C1, on the in-memory store: "mp-149" resolves to the tasks "mp-1" and
    "mp-2", whose stored strings encode a band structure and a density of
    states. *)
Lemma decode_encode_roundtrip_witness :
  (valid_object (BandStructureSymmLine 5) /\
   outcome (get_bandstructure_from_material_id "mp-149" setyawan_curtarolo true)
     = Return (BandStructureSymmLine 5)) /\
  (valid_object (CompleteDos 7) /\
   outcome (get_dos_from_material_id "mp-149") = Return (CompleteDos 7)).
Proof.
  assert (Hbs : valid_object (BandStructureSymmLine 5))
    by (repeat split; vm_compute; reflexivity).
  assert (Hdos : valid_object (CompleteDos 7))
    by (repeat split; vm_compute; reflexivity).
  split; (split; [assumption|]).
  - refine (proj1 (proj2 (decode_encode_roundtrip (BSPathType := BSPathType)
      (BandStructureSymmLine 5) Hbs))
      "mp-149" setyawan_curtarolo true (PStr "mp-1")
      {[ "data" := PList [PStr (encode (BandStructureSymmLine 5))] ]} []
      _ _ _); reflexivity.
  - refine (proj2 (proj2 (decode_encode_roundtrip (BSPathType := BSPathType)
      (CompleteDos 7) Hdos))
      "mp-149" (PStr "mp-2")
      {[ "data" := PList [PStr (encode (CompleteDos 7))] ]} []
      _ _ _); reflexivity.
Defined.

(** C2, on the in-memory store: "mp-149" has
    [bandstructure = {"setyawan_curtarolo": {"task_id": "mp-1"}}]. *)
Lemma line_mode_resolution_witness :
  get_bandstructure_from_material_id "mp-149" setyawan_curtarolo true =
    ([EvGetDataById "mp-149" ["bandstructure"]; object_query (PStr "mp-1")],
     Return (BandStructureSymmLine 5)) /\
  get_bandstructure_from_material_id (PyObject := Demo.PyObject)
    "mp-149" Demo.hinuma true =
    ([EvGetDataById "mp-149" ["bandstructure"]],
     Raise (MPRestError "No hinuma band structure data found for mp-149")).
Proof.
  split.
  - etransitivity; [|reflexivity].
    refine (proj2 (proj1 (line_mode_resolution (PyObject := PyObject)
             "mp-149" setyawan_curtarolo (doc_for "mp-1" "mp-2")
             {[ "setyawan_curtarolo" := Demo.task_entry "mp-1" ]}
             _ _) {[ "task_id" := PStr "mp-1" ]} (PStr "mp-1") _ _));
      reflexivity.
  - refine (proj2 (line_mode_resolution (PyObject := Demo.PyObject)
             "mp-149" Demo.hinuma (Demo.doc_for "mp-1" "mp-2")
             {[ "setyawan_curtarolo" := Demo.task_entry "mp-1" ]}
             _ _) _); reflexivity.
Defined.

(** C3, on the in-memory store: "mp-149" has
    [dos = {"total": {"1": {"task_id": "mp-2"}}}], "mp-empty" has
    [dos = null]. *)
Lemma uniform_mode_reads_dos_witness :
  get_bandstructure_from_material_id "mp-149" setyawan_curtarolo false =
    ([EvGetDataById "mp-149" ["dos"]; object_query (PStr "mp-2")],
     Return (CompleteDos 7)) /\
  get_bandstructure_from_material_id (PyObject := PyObject)
    "mp-empty" setyawan_curtarolo false =
    ([EvGetDataById "mp-empty" ["dos"]],
     Raise (MPRestError "No uniform band structure data found for mp-empty")).
Proof.
  split.
  - etransitivity; [|reflexivity].
    refine (proj2 (proj2 (proj2 (uniform_mode_reads_dos
      (PyObject := PyObject) "mp-149" setyawan_curtarolo
      (doc_for "mp-1" "mp-2") _))
      {[ "total" := PDict {[ "1" := task_entry "mp-2" ]} ]}
      {[ "1" := task_entry "mp-2" ]} {[ "task_id" := PStr "mp-2" ]}
      (PStr "mp-2") _ _ _ _)); reflexivity.
  - refine (proj1 (proj2 (uniform_mode_reads_dos
      (PyObject := PyObject) "mp-empty" setyawan_curtarolo
      {| bandstructure := None; dos := None |} _)) _);
      [reflexivity|by left].
Defined.

(** C4, on the in-memory store: "mp-149", "mp-empty" and "mp-odd", whose
    [dos] is [{"total": {}}]. *)
Lemma dos_resolution_witness :
  get_dos_from_material_id "mp-149" =
    ([EvGetDataById "mp-149" ["dos"]; object_query (PStr "mp-2")],
     Return (CompleteDos 7)) /\
  get_dos_from_material_id (PyObject := PyObject) "mp-empty" =
    ([EvGetDataById "mp-empty" ["dos"]],
     Raise (MPRestError "No density of states data found for mp-empty")) /\
  get_dos_from_material_id (PyObject := PyObject) "mp-odd" =
    ([EvGetDataById "mp-odd" ["dos"]], Raise (KeyError (KStr "1"))).
Proof.
  split; [|split].
  - etransitivity; [|reflexivity].
    refine (proj2 (proj1 (dos_resolution (PyObject := PyObject) "mp-149"
      (doc_for "mp-1" "mp-2") _)
      {[ "total" := PDict {[ "1" := task_entry "mp-2" ]} ]}
      {[ "1" := task_entry "mp-2" ]} {[ "task_id" := PStr "mp-2" ]}
      (PStr "mp-2") _ _ _ _)); reflexivity.
  - refine (proj1 (proj2 (dos_resolution (PyObject := PyObject) "mp-empty"
      {| bandstructure := None; dos := None |} _)) _); reflexivity.
  - refine (proj2 (proj2 (dos_resolution (PyObject := PyObject) "mp-odd"
      {| bandstructure :=
           Some {[ "setyawan_curtarolo" := PDict ∅; "hinuma" := PNone ]};
         dos := Some {[ "total" := PDict ∅ ]} |} _))
      {[ "total" := PDict ∅ ]} ∅ _ _ _); reflexivity.
Defined.

(** C5, on the in-memory store: the body for task "mp-6" has
    ["data": null], the body for "mp-3" has ["data": []]. *)
Lemma object_absence_witness :
  outcome (get_bandstructure_from_task_id (PStr "mp-6")) =
    Raise (MPRestError "No object found") /\
  outcome (get_bandstructure_from_task_id (PStr "mp-3")) = Return (PList []).
Proof.
  split.
  - refine (proj2 (proj1 (object_absence
      (BSPathType := BSPathType) (PStr "mp-6") {[ "data" := PNone ]} _)) _);
      [reflexivity|by right].
  - refine (proj1 (proj2 (object_absence
      (BSPathType := BSPathType) (PStr "mp-3") {[ "data" := PList [] ]} _))
      (PList []) _ _); [reflexivity|reflexivity|discriminate].
Defined.

(** C6, on the in-memory store: the stored strings of "mp-corrupt" are
    "QUJD!" for the band structure and "QUJDR" for the density of states;
    and "QUJD=" is "QUJD", which decodes to the bytes of "ABC", with a
    pad sign appended. *)
Lemma strict_base64_decoding_witness :
  (has_invalid_char "QUJD!" /\
   exists e, encoding_error e /\
     outcome (get_bandstructure_from_material_id (PyObject := PyObject)
                "mp-corrupt" setyawan_curtarolo true) = Raise e) /\
  (refused_padding "QUJDR" /\
   exists e, encoding_error e /\
     outcome (get_dos_from_material_id (PyObject := PyObject) "mp-corrupt")
       = Raise e) /\
  (surplus_padding "QUJD=" /\
   exists bs, Base64.b64decode_validate (PStr "QUJD=") = Return bs) /\
  Base64.b64decode_validate (PStr "QUJD=") =
    Return [Byte.x41; Byte.x42; Byte.x43].
Proof.
  assert (Hchar : has_invalid_char "QUJD!").
  { exists "!"%char. split; [simpl; tauto|]. split; [reflexivity|discriminate]. }
  assert (Hpad : refused_padding "QUJDR").
  { exists (list_ascii_of_string "QUJDR"), 0%nat.
    split; [|right; left; reflexivity]. split; [reflexivity|].
    repeat constructor; eexists; reflexivity. }
  assert (Hsurplus : surplus_padding "QUJD=").
  { exists (list_ascii_of_string "QUJD"), 1%nat.
    split; [|split; [lia|left; split; [reflexivity|lia]]].
    split; [reflexivity|]. repeat constructor; eexists; reflexivity. }
  split; [|split; [|split]].
  - split; [assumption|].
    destruct (proj1 (strict_base64_decoding (PyObject := PyObject)
      (BSPathType := BSPathType) "QUJD!") (or_introl Hchar))
      as (e & He & _ & _ & Hbs & _).
    exists e. split; [exact He|].
    by apply (Hbs "mp-corrupt" setyawan_curtarolo true (PStr "mp-4")
                (PList [PStr "QUJD!"])).
  - split; [assumption|].
    destruct (proj1 (strict_base64_decoding (PyObject := PyObject)
      (BSPathType := BSPathType) "QUJDR") (or_intror Hpad))
      as (e & He & _ & _ & _ & Hdos).
    exists e. split; [exact He|].
    by apply (Hdos "mp-corrupt" (PStr "mp-5") (PList [PStr "QUJDR"])).
  - split; [assumption|].
    exact (proj1 (proj2 (proj2 (strict_base64_decoding
      (PyObject := PyObject) (BSPathType := BSPathType) "QUJD=")))
      Hsurplus).
  - assert (Hshape : padded "QUJD" (list_ascii_of_string "QUJD") 0).
    { split; [reflexivity|]. repeat constructor; eexists; reflexivity. }
    exact (proj1 (proj1 (proj2 (proj2 (proj2 (strict_base64_decoding
      (PyObject := PyObject) (BSPathType := BSPathType)
      (transport := transport) "QUJD"))))
      (list_ascii_of_string "QUJD") 0%nat 1%nat
      [Byte.x41; Byte.x42; Byte.x43] Hshape ltac:(lia) eq_refl)).
Defined.

(** C6 does not hold of every incorrect padding.  "QUJD=" has one, a pad
    sign after a complete group, and the base64 stage does not fail on
    it: it returns the three bytes of "ABC".  Nor does the decode stage
    as a whole: on the in-memory store, the stored string of a density
    of states with a pad sign appended has incorrect padding and is
    decoded to that density of states. *)
Lemma strict_base64_decoding_counterexample :
  incorrect_padding "QUJD=" /\
  Base64.b64decode_validate (PStr "QUJD=") =
    Return [Byte.x41; Byte.x42; Byte.x43] /\
  incorrect_padding (encode (CompleteDos 7) +:+ "=") /\
  decode (PStr (encode (CompleteDos 7) +:+ "=")) = Return (CompleteDos 7) /\
  ~ (forall s,
        has_invalid_char s \/ incorrect_padding s ->
        exists e, encoding_error e /\
                  decode (PyObject := PyObject) (PStr s) = Raise e).
Proof.
  assert (Hpad : incorrect_padding (encode (CompleteDos 7) +:+ "=")).
  { exists (list_ascii_of_string (encode (CompleteDos 7))), 1%nat.
    split; [split|].
    - by rewrite Base64Facts.list_ascii_of_string_app.
    - apply Base64Facts.Forall_alphabet. vm_compute. reflexivity.
    - intros [[_ Hnone]|[[Htwo _]|[Hthree _]]];
        [discriminate Hnone|vm_compute in Htwo|vm_compute in Hthree];
        discriminate. }
  assert (Hdec : decode (PStr (encode (CompleteDos 7) +:+ "="))
                 = Return (CompleteDos 7)) by (vm_compute; reflexivity).
  split; [|split; [reflexivity|split; [exact Hpad|split; [exact Hdec|]]]].
  - exists (list_ascii_of_string "QUJD"), 1%nat. split; [split|].
    + reflexivity.
    + repeat constructor; eexists; reflexivity.
    + intros [[_ Hnone]|[[Htwo _]|[Hthree _]]]; discriminate.
  - intros Hstrict.
    destruct (Hstrict _ (or_intror Hpad)) as (e & _ & Hraise).
    rewrite Hdec in Hraise. discriminate.
Qed.

(** C7, on the in-memory store: "mp-empty" has [bandstructure = null]. *)
Lemma null_bandstructure_fails_before_fetch_witness :
  outcome (get_bandstructure_from_material_id (PyObject := PyObject)
             "mp-empty" hinuma true) =
    Raise (MPRestError "No hinuma band structure data found for mp-empty") /\
  requests (get_bandstructure_from_material_id (PyObject := PyObject)
              "mp-empty" hinuma true) =
    [EvGetDataById "mp-empty" ["bandstructure"]].
Proof.
  destruct (null_bandstructure_fails_before_fetch (PyObject := PyObject)
    (transport := transport) "mp-empty" hinuma {| bandstructure := None; dos := None |}
    ltac:(reflexivity) ltac:(reflexivity)) as (Hout & Hreq & _).
  split; assumption.
Defined.

(** C8, on the in-memory store: the string "QUJDR" fails at the base64
    stage, and that is the outcome of the whole call for "mp-corrupt". *)
Lemma decode_all_or_nothing_witness :
  outcome (get_dos_from_material_id (PyObject := PyObject) "mp-corrupt") =
    Raise (BinasciiError
      "Invalid base64-encoded string: number of data characters (5) cannot be 1 more than a multiple of 4").
Proof.
  destruct (decode_all_or_nothing (PyObject := PyObject)
    (BSPathType := BSPathType) (transport := transport) (PStr "QUJDR"))
    as (Hb64 & _ & _ & _ & _ & _ & _ & Hdos).
  rewrite (Hdos "mp-corrupt" (PStr "mp-5") (PList [PStr "QUJDR"])
             ltac:(reflexivity) ltac:(reflexivity) ltac:(reflexivity)).
  apply Hb64. reflexivity.
Defined.

(** C9, on the in-memory store: "mp-odd" maps "setyawan_curtarolo" to an
    empty mapping and "hinuma" to [None]. *)
Lemma falsy_path_entry_is_absent_witness :
  get_bandstructure_from_material_id (PyObject := PyObject)
    "mp-odd" setyawan_curtarolo true =
    ([EvGetDataById "mp-odd" ["bandstructure"]],
     Raise (MPRestError
       "No setyawan_curtarolo band structure data found for mp-odd")) /\
  get_bandstructure_from_material_id (PyObject := PyObject)
    "mp-odd" hinuma true =
    ([EvGetDataById "mp-odd" ["bandstructure"]],
     Raise (MPRestError "No hinuma band structure data found for mp-odd")).
Proof.
  split.
  - refine (falsy_path_entry_is_absent (PyObject := PyObject)
      "mp-odd" setyawan_curtarolo
      {| bandstructure :=
           Some {[ "setyawan_curtarolo" := PDict ∅; "hinuma" := PNone ]};
         dos := Some {[ "total" := PDict ∅ ]} |}
      {[ "setyawan_curtarolo" := PDict ∅; "hinuma" := PNone ]} (PDict ∅)
      _ _ _ _); reflexivity.
  - refine (falsy_path_entry_is_absent (PyObject := PyObject)
      "mp-odd" hinuma
      {| bandstructure :=
           Some {[ "setyawan_curtarolo" := PDict ∅; "hinuma" := PNone ]};
         dos := Some {[ "total" := PDict ∅ ]} |}
      {[ "setyawan_curtarolo" := PDict ∅; "hinuma" := PNone ]} PNone
      _ _ _ _); reflexivity.
Defined.

(** C10, on the in-memory store: "mp-hollow" resolves to task "mp-3",
    whose body has ["data": []]. *)
Lemma falsy_object_second_guard_witness :
  get_bandstructure_from_task_id (PStr "mp-3") =
    ([object_query (PStr "mp-3")], Return (PList [])) /\
  outcome (get_bandstructure_from_material_id (PyObject := PyObject)
             "mp-hollow" setyawan_curtarolo true) =
    Raise (MPRestError "No band structure object found.") /\
  outcome (get_dos_from_material_id (PyObject := PyObject) "mp-hollow") =
    Raise (MPRestError "No density of states object found.").
Proof.
  destruct (falsy_object_second_guard (PyObject := PyObject)
    (BSPathType := BSPathType) (transport := transport) (PStr "mp-3") {[ "data" := PList [] ]}
    (PList []) ltac:(reflexivity) ltac:(reflexivity) ltac:(discriminate)
    ltac:(reflexivity)) as (Hfetch & _ & Hbs & Hdos & _).
  split; [exact Hfetch|]. split.
  - by apply Hbs.
  - by apply Hdos.
Defined.

End Examples.

(** ** Python strings *)

Lemma str_split_cons (sep : ascii) (s : string) :
  exists piece pieces, str_split sep s = piece :: pieces.
Proof.
  induction s as [|c s (piece & pieces & IH)]; simpl; [by eauto|].
  destruct (Ascii.eqb c sep); [by eauto|]. rewrite IH. eauto.
Qed.

Lemma str_join_cons (sep x y : string) (rest : list string) :
  str_join sep (x :: y :: rest) = x +:+ sep +:+ str_join sep (y :: rest).
Proof. reflexivity. Qed.

Lemma str_join_split (sep : ascii) (s : string) :
  str_join (String sep "") (str_split sep s) = s.
Proof.
  induction s as [|c s IH]; [reflexivity|]. simpl str_split.
  destruct (Ascii.eqb_spec c sep) as [->|Hne].
  - destruct (str_split_cons sep s) as (piece & pieces & Hs).
    rewrite Hs in *. rewrite str_join_cons, IH. reflexivity.
  - destruct (str_split_cons sep s) as (piece & pieces & Hs).
    rewrite Hs in *. destruct pieces as [|p pieces].
    + cbn [str_join] in *. by rewrite IH.
    + rewrite str_join_cons in *. rewrite <- IH. reflexivity.
Qed.

Lemma str_split_no_sep (sep : ascii) (s : string) :
  ~ has_char sep s -> str_split sep s = [s].
Proof.
  unfold has_char. induction s as [|c s IH]; [reflexivity|].
  simpl. intros Hno. destruct (Ascii.eqb_spec c sep) as [->|Hne].
  - destruct Hno. by left.
  - rewrite IH; [reflexivity|]. intros Hin. apply Hno. by right.
Qed.

Lemma str_split_app (sep : ascii) (x rest : string) :
  ~ has_char sep x ->
  str_split sep (x +:+ String sep rest) = x :: str_split sep rest.
Proof.
  unfold has_char. induction x as [|c x IH]; simpl.
  - intros _. by rewrite Ascii.eqb_refl.
  - intros Hno. destruct (Ascii.eqb_spec c sep) as [->|Hne].
    + destruct Hno. by left.
    + rewrite IH; [reflexivity|]. intros Hin. apply Hno. by right.
Qed.

Lemma str_split_join (sep : ascii) (parts : list string) :
  parts <> [] ->
  Forall (fun x => ~ has_char sep x) parts ->
  str_split sep (str_join (String sep "") parts) = parts.
Proof.
  intros Hne Hparts. induction Hparts as [|x rest Hx Hrest IH]; [done|].
  destruct rest as [|y rest].
  - simpl. by apply str_split_no_sep.
  - rewrite str_join_cons.
    change (x +:+ String sep "" +:+ str_join (String sep "") (y :: rest))
      with (x +:+ String sep (str_join (String sep "") (y :: rest))).
    rewrite str_split_app by done. by rewrite IH.
Qed.

Lemma str_split_pieces (sep : ascii) (s : string) :
  Forall (fun x => ~ has_char sep x) (str_split sep s).
Proof.
  unfold has_char. induction s as [|c s IH]; simpl.
  - constructor; [|constructor]. intros [].
  - destruct (Ascii.eqb_spec c sep) as [->|Hne].
    + constructor; [intros []|exact IH].
    + destruct (str_split sep s) as [|piece pieces]; simpl.
      * constructor; [|constructor]. intros [?|[]]. congruence.
      * inversion IH as [|? ? Hpiece Hpieces]; subst.
        constructor; [|exact Hpieces]. intros [?|?]; [congruence|done].
Qed.

Lemma lstrip_chars_idemp (cs : list ascii) :
  lstrip_chars (lstrip_chars cs) = lstrip_chars cs.
Proof.
  induction cs as [|c cs IH]; [reflexivity|]. simpl.
  destruct (py_isspace c) eqn:Hc; [exact IH|]. simpl. by rewrite Hc.
Qed.

Lemma lstrip_chars_head (cs : list ascii) :
  match lstrip_chars cs with
  | c :: _ => py_isspace c = false
  | [] => True
  end.
Proof.
  induction cs as [|c cs IH]; [done|]. simpl.
  destruct (py_isspace c) eqn:Hc; [exact IH|]. simpl. exact Hc.
Qed.

Lemma lstrip_chars_suffix (cs : list ascii) :
  exists spaces, cs = (spaces ++ lstrip_chars cs)%list.
Proof.
  induction cs as [|c cs [spaces IH]]; [by exists []|]. simpl.
  destruct (py_isspace c).
  - exists (c :: spaces). simpl. by rewrite <- IH.
  - by exists [].
Qed.

(** Stripping on the left does not disturb a stripped right end. *)
Lemma lstrip_chars_rev_stable (cs : list ascii) :
  lstrip_chars (rev cs) = rev cs ->
  lstrip_chars (rev (lstrip_chars cs)) = rev (lstrip_chars cs).
Proof.
  intros Hright. destruct (lstrip_chars_suffix cs) as [spaces Hcs].
  destruct (lstrip_chars cs) as [|c rest] eqn:Hstrip; [reflexivity|].
  rewrite Hcs, rev_app_distr in Hright.
  destruct (rev (c :: rest)) as [|d tail] eqn:Hrev.
  { apply (f_equal (@length _)) in Hrev. rewrite length_rev in Hrev.
    discriminate. }
  simpl in Hright. simpl. destruct (py_isspace d); [|reflexivity].
  exfalso.
  destruct (lstrip_chars_suffix (tail ++ rev spaces)) as [sp Hsp].
  rewrite Hright in Hsp. apply (f_equal (@length _)) in Hsp.
  rewrite !length_app in Hsp. simpl in Hsp. rewrite ?length_app in Hsp. lia.
Qed.

Lemma str_strip_chars (s : string) :
  list_ascii_of_string (str_strip s) =
  rev (lstrip_chars (rev (lstrip_chars (list_ascii_of_string s)))).
Proof. unfold str_strip. apply list_ascii_of_string_of_list_ascii. Qed.

Lemma str_strip_idemp (s : string) : str_strip (str_strip s) = str_strip s.
Proof.
  unfold str_strip at 1. rewrite str_strip_chars. unfold str_strip.
  set (A := lstrip_chars (list_ascii_of_string s)).
  assert (HA : lstrip_chars (rev (rev A)) = rev (rev A))
    by (rewrite rev_involutive; apply lstrip_chars_idemp).
  rewrite (lstrip_chars_rev_stable (rev A) HA).
  by rewrite rev_involutive, lstrip_chars_idemp.
Qed.

(** A stripped string neither begins nor ends with white space. *)
Lemma str_strip_ends (s : string) :
  match list_ascii_of_string (str_strip s) with
  | c :: _ => py_isspace c = false
  | [] => True
  end /\
  match rev (list_ascii_of_string (str_strip s)) with
  | c :: _ => py_isspace c = false
  | [] => True
  end.
Proof.
  rewrite str_strip_chars.
  set (A := lstrip_chars (list_ascii_of_string s)). split.
  - assert (HA : lstrip_chars (rev (rev A)) = rev (rev A))
      by (rewrite rev_involutive; apply lstrip_chars_idemp).
    rewrite <- (lstrip_chars_rev_stable (rev A) HA).
    apply lstrip_chars_head.
  - rewrite rev_involutive. apply lstrip_chars_head.
Qed.

Lemma lstrip_chars_In (c : ascii) (cs : list ascii) :
  In c (lstrip_chars cs) -> In c cs.
Proof.
  destruct (lstrip_chars_suffix cs) as [spaces Hcs]. intros Hin.
  rewrite Hcs. apply in_or_app. by right.
Qed.

(** Stripping adds no character. *)
Lemma str_strip_has_char (c : ascii) (s : string) :
  has_char c (str_strip s) -> has_char c s.
Proof.
  unfold has_char. rewrite str_strip_chars. intros Hin.
  apply in_rev in Hin. apply lstrip_chars_In in Hin.
  apply in_rev in Hin. by apply lstrip_chars_In in Hin.
Qed.

(** ** The dicts of the search methods *)

Lemma drop_None_lookup (d : gmap string pyval) (k : string) :
  drop_None d !! k =
  match d !! k with
  | Some v => if is_not_None v then Some v else None
  | None => None
  end.
Proof.
  unfold drop_None. destruct (d !! k) as [v|] eqn:Hk.
  - destruct (is_not_None v) eqn:Hv.
    + by apply map_lookup_filter_Some.
    + apply map_lookup_filter_None. right. intros v' Hk'. simpl.
      rewrite Hk in Hk'. injection Hk' as <-. by rewrite Hv.
  - apply map_lookup_filter_None. by left.
Qed.

Lemma drop_None_not_None (d : gmap string pyval) (k : string) (v : pyval) :
  drop_None d !! k = Some v -> v <> PNone /\ d !! k = Some v.
Proof.
  rewrite drop_None_lookup. destruct (d !! k) as [w|]; [|done].
  destruct w; simpl; intros [= <-]; done.
Qed.

Lemma update_joined_ne name given parts d (k : string) :
  k <> name -> update_joined name given parts d !! k = d !! k.
Proof.
  intros Hne. unfold update_joined, dict_update. destruct given; [|done].
  rewrite lookup_union, lookup_singleton_ne by done.
  by destruct (d !! k).
Qed.

Lemma update_joined_eq name given parts d :
  update_joined name given parts d !! name =
  if given then Some (PStr (str_join "," parts)) else d !! name.
Proof.
  unfold update_joined, dict_update. destruct given; [|done].
  rewrite lookup_union, lookup_singleton_eq. by destruct (d !! name).
Qed.

Lemma update_range_ne name_min name_max r d (k : string) :
  k <> name_min -> k <> name_max ->
  update_range name_min name_max r d !! k = d !! k.
Proof.
  intros Hmin Hmax. unfold update_range, dict_update.
  destruct r as [[lo hi]|]; [|done].
  rewrite lookup_union, lookup_insert_ne, lookup_singleton_ne by done.
  by destruct (d !! k).
Qed.

Lemma update_range_min name_min name_max lo hi d :
  name_min <> name_max ->
  update_range name_min name_max (Some (lo, hi)) d !! name_min = Some lo.
Proof.
  intros Hne. unfold update_range, dict_update.
  rewrite lookup_union, lookup_insert_eq. by destruct (d !! name_min).
Qed.

Lemma update_range_max name_min name_max lo hi d :
  name_min <> name_max ->
  update_range name_min name_max (Some (lo, hi)) d !! name_max = Some hi.
Proof.
  intros Hne. unfold update_range, dict_update.
  rewrite lookup_union, lookup_insert_ne, lookup_singleton_eq by done.
  by destruct (d !! name_max).
Qed.

Lemma update_flag_ne name b d (k : string) :
  k <> name -> update_flag name b d !! k = d !! k.
Proof.
  intros Hne. unfold update_flag, dict_update. destruct b; [|done].
  rewrite lookup_union, lookup_singleton_ne by done. by destruct (d !! k).
Qed.

Lemma update_flag_eq name b d :
  update_flag name b d !! name =
  match b with Some v => Some (PBool v) | None => d !! name end.
Proof.
  unfold update_flag, dict_update. destruct b; [|done].
  rewrite lookup_union, lookup_singleton_eq. by destruct (d !! name).
Qed.

Lemma update_enum_ne {E} `{!PyEnum E} name (x : option E) d (k : string) :
  k <> name -> update_enum name x d !! k = d !! k.
Proof.
  intros Hne. unfold update_enum, dict_update. destruct x; [|done].
  rewrite lookup_union, lookup_singleton_ne by done. by destruct (d !! k).
Qed.

Lemma update_enum_eq {E} `{!PyEnum E} name (x : option E) d :
  update_enum name x d !! name =
  match x with Some m => Some (enum_value m) | None => d !! name end.
Proof.
  unfold update_enum, dict_update. destruct x; [|done].
  rewrite lookup_union, lookup_singleton_eq. by destruct (d !! name).
Qed.

Lemma update_joined_dom name given parts d :
  dom (update_joined name given parts d) ⊆ {[ name ]} ∪ dom d.
Proof.
  unfold update_joined, dict_update. destruct given; [|set_solver].
  rewrite dom_union_L, dom_singleton_L. set_solver.
Qed.

Lemma update_range_dom name_min name_max r d :
  dom (update_range name_min name_max r d) ⊆
  {[ name_min; name_max ]} ∪ dom d.
Proof.
  unfold update_range, dict_update. destruct r as [[lo hi]|]; [|set_solver].
  rewrite dom_union_L, dom_insert_L, dom_singleton_L. set_solver.
Qed.

Lemma update_flag_dom name b d :
  dom (update_flag name b d) ⊆ {[ name ]} ∪ dom d.
Proof.
  unfold update_flag, dict_update. destruct b; [|set_solver].
  rewrite dom_union_L, dom_singleton_L. set_solver.
Qed.

Lemma update_enum_dom {E} `{!PyEnum E} name (x : option E) d :
  dom (update_enum name x d) ⊆ {[ name ]} ∪ dom d.
Proof.
  unfold update_enum, dict_update. destruct x; [|set_solver].
  rewrite dom_union_L, dom_singleton_L. set_solver.
Qed.

Section SearchFacts.

Context {Docs Ordering BSPathType : Type}.
Context `{layer : !SearchLayer Docs, orderings : !PyEnum Ordering,
          path_types : !PathType BSPathType}.

Local Ltac through :=
  repeat first
    [ rewrite update_joined_ne by done | rewrite update_range_ne by done
    | rewrite update_flag_ne by done | rewrite update_enum_ne by done ].

Local Ltac dom_chain :=
  repeat (etrans;
          [ first [ apply update_joined_dom | apply update_range_dom
                  | apply update_flag_dom | apply update_enum_dom ] |];
          apply union_least; [set_solver|]).

(** X1. [ElectronicStructureRester.search] hands [_search] no keyword
    whose value is [None], and no keyword outside its fourteen. *)
Theorem es_search_keywords (a : ElectronicStructureRester.Args (Ordering := Ordering))
    (k : string) (v : pyval) :
  ElectronicStructureRester.query_params a !! k = Some v ->
  v <> PNone /\ k ∈ ElectronicStructureRester.keywords.
Proof.
  unfold ElectronicStructureRester.query_params.
  intros [Hv Hk]%drop_None_not_None. split; [exact Hv|].
  apply elem_of_dom_2 in Hk.
  apply (elem_of_list_to_set (C := gset string)).
  eapply elem_of_weaken; [exact Hk|].
  unfold ElectronicStructureRester.keywords. dom_chain. set_solver.
Qed.

(** X2. [formula] as text: a non-empty string [s] gives the query of the
    one-element list [[s]]; an empty string and an empty list give the
    query of no formula at all; the list [[""]], however, is a filter, and
    sends an empty formula. *)
Theorem es_search_formula_forms
    (a : ElectronicStructureRester.Args (Ordering := Ordering)) :
  let query f :=
    ElectronicStructureRester.query_params
      (ElectronicStructureRester.with_formula f a) in
  (forall s, s <> "" -> query (Some (inl s)) = query (Some (inr [s]))) /\
  query (Some (inl "")) = query None /\
  query (Some (inr [])) = query None /\
  query (Some (inr [""])) !! "formula" = Some (PStr "").
Proof.
  cbv zeta. split; [|split; [|split]]; try reflexivity.
  - intros s Hs. unfold ElectronicStructureRester.query_params.
    cbn [ElectronicStructureRester.formula
         ElectronicStructureRester.with_formula text_given text_list].
    destruct s; [done|reflexivity].
  - unfold ElectronicStructureRester.query_params. cbv zeta.
    rewrite drop_None_lookup. through.
    rewrite update_joined_eq. reflexivity.
Qed.

(** X3. Ranges are passed bound by bound: of [band_gap = (lo, hi)]
    [search] passes [band_gap_min = lo] and [band_gap_max = hi], except
    that a bound which is [None] is left out while the other still
    filters; the same holds for [efermi] and [num_elements]. *)
Theorem es_search_ranges
    (a : ElectronicStructureRester.Args (Ordering := Ordering)) :
  let bound (r : option (pyval * pyval)) (pick : pyval * pyval -> pyval) :=
    match r with
    | Some range => if is_not_None (pick range) then Some (pick range) else None
    | None => None
    end in
  let q := ElectronicStructureRester.query_params a in
  q !! "band_gap_min" = bound (ElectronicStructureRester.band_gap a) fst /\
  q !! "band_gap_max" = bound (ElectronicStructureRester.band_gap a) snd /\
  q !! "efermi_min" = bound (ElectronicStructureRester.efermi a) fst /\
  q !! "efermi_max" = bound (ElectronicStructureRester.efermi a) snd /\
  q !! "nelements_min" = bound (ElectronicStructureRester.num_elements a) fst /\
  q !! "nelements_max" = bound (ElectronicStructureRester.num_elements a) snd.
Proof.
  unfold ElectronicStructureRester.query_params. cbv zeta.
  rewrite !drop_None_lookup.
  repeat split; through.
  all: match goal with
       | |- context [update_range ?n _ ?r _ !! ?n] => destruct r as [[lo hi]|]
       | |- context [update_range _ ?n ?r _ !! ?n] => destruct r as [[lo hi]|]
       end;
    [ first [ rewrite update_range_min by done
            | rewrite update_range_max by done ]; reflexivity
    | cbn [update_range]; through; rewrite lookup_empty; reflexivity ].
Qed.

(** X4. [sort_fields] reach the server stripped: when no field contains a
    comma, splitting the [_sort_fields] keyword at the commas gives back
    the fields, each without white space at either end. *)
Theorem es_search_sort_fields
    (a : ElectronicStructureRester.Args (Ordering := Ordering))
    (field : string) (more : list string) :
  ElectronicStructureRester.sort_fields a = Some (field :: more) ->
  Forall (fun x => ~ has_char "," x) (field :: more) ->
  exists joined,
    ElectronicStructureRester.query_params a !! "_sort_fields"
      = Some (PStr joined) /\
    str_split "," joined = str_strip <$> (field :: more) /\
    Forall (fun x => str_strip x = x) (str_split "," joined).
Proof.
  intros Hsort Hcommas.
  exists (str_join "," (str_strip <$> (field :: more))). split; [|split].
  - unfold ElectronicStructureRester.query_params. cbv zeta.
    rewrite drop_None_lookup, update_joined_eq, Hsort. reflexivity.
  - apply str_split_join; [done|].
    apply Forall_fmap. eapply Forall_impl; [exact Hcommas|].
    intros x Hx Hstrip. apply Hx. by apply str_strip_has_char.
  - rewrite str_split_join.
    + apply Forall_fmap, Forall_forall. intros x _. apply str_strip_idemp.
    + done.
    + apply Forall_fmap. eapply Forall_impl; [exact Hcommas|].
      intros x Hx Hstrip. apply Hx. by apply str_strip_has_char.
Qed.

(** X5. [BandStructureRester.search] always passes [path_type], with the
    value of the member; like the other searches it passes no [None] and
    no keyword outside its nine. *)
Theorem bs_search_keywords
    (a : BandStructureRester.Args (Ordering := Ordering)
           (BSPathType := BSPathType)) :
  BandStructureRester.query_params a !! "path_type"
    = Some (PStr (value (BandStructureRester.path_type a))) /\
  (forall k v,
      BandStructureRester.query_params a !! k = Some v ->
      v <> PNone /\ k ∈ BandStructureRester.keywords).
Proof.
  unfold BandStructureRester.query_params. cbv zeta. split.
  - rewrite drop_None_lookup. through. by rewrite lookup_insert_eq.
  - intros k v [Hv Hk]%drop_None_not_None. split; [exact Hv|].
    apply elem_of_dom_2 in Hk.
    apply (elem_of_list_to_set (C := gset string)).
    eapply elem_of_weaken; [exact Hk|].
    unfold BandStructureRester.keywords. dom_chain. set_solver.
Qed.

End SearchFacts.

Section DosSearchFacts.

Context {Docs Ordering Element OrbitalType DOSProjectionType Spin : Type}.
Context `{layer : !SearchLayer Docs, orderings : !PyEnum Ordering,
          element_members : !PyEnum Element,
          orbitals : !PyEnum OrbitalType,
          projections : !PyEnum DOSProjectionType, spins : !PyEnum Spin}.

Local Ltac through :=
  repeat first
    [ rewrite update_joined_ne by done | rewrite update_range_ne by done
    | rewrite update_flag_ne by done | rewrite update_enum_ne by done ].

Local Ltac dom_chain :=
  repeat (etrans;
          [ first [ apply update_joined_dom | apply update_range_dom
                  | apply update_flag_dom | apply update_enum_dom ] |];
          apply union_least; [set_solver|]).

(** X6. [DosRester.search] passes the value of every enum argument it is
    given, whether that value is truthy or not (the orbital [s] has value
    0), provided the value is not [None]: [projection_type] and [spin]
    always, [element] and [orbital] when present.  It passes no [None]
    and no keyword outside its ten. *)
Theorem dos_search_keywords
    (a : DosRester.Args (Ordering := Ordering) (Element := Element)
           (OrbitalType := OrbitalType)
           (DOSProjectionType := DOSProjectionType) (Spin := Spin)) :
  let q := DosRester.query_params a in
  (enum_value (DosRester.projection_type a) <> PNone ->
   q !! "projection_type" = Some (enum_value (DosRester.projection_type a))) /\
  (enum_value (DosRester.spin a) <> PNone ->
   q !! "spin" = Some (enum_value (DosRester.spin a))) /\
  (forall member, DosRester.orbital a = Some member ->
     enum_value member <> PNone ->
     q !! "orbital" = Some (enum_value member)) /\
  (forall member, DosRester.element a = Some member ->
     enum_value member <> PNone ->
     q !! "element" = Some (enum_value member)) /\
  (DosRester.orbital a = None -> q !! "orbital" = None) /\
  (DosRester.element a = None -> q !! "element" = None) /\
  (forall k v, q !! k = Some v -> v <> PNone /\ k ∈ DosRester.keywords).
Proof.
  assert (Hkeep : forall v : pyval, v <> PNone -> is_not_None v = true)
    by (by intros []).
  unfold DosRester.query_params. cbv zeta.
  split; [|split; [|split; [|split; [|split; [|split]]]]].
  - intros Hv. rewrite drop_None_lookup. through.
    destruct (DosRester.orbital a), (DosRester.element a);
      rewrite ?lookup_insert_ne by done;
      by rewrite lookup_insert_eq, (Hkeep _ Hv).
  - intros Hv. rewrite drop_None_lookup. through.
    destruct (DosRester.orbital a), (DosRester.element a);
      rewrite ?lookup_insert_ne by done;
      by rewrite lookup_insert_eq, (Hkeep _ Hv).
  - intros member -> Hv. rewrite drop_None_lookup. through.
    by rewrite lookup_insert_eq, (Hkeep _ Hv).
  - intros member -> Hv. rewrite drop_None_lookup. through.
    destruct (DosRester.orbital a);
      rewrite ?lookup_insert_ne by done;
      by rewrite lookup_insert_eq, (Hkeep _ Hv).
  - intros ->. rewrite drop_None_lookup. through.
    destruct (DosRester.element a);
      by rewrite ?lookup_insert_ne, ?lookup_empty by done.
  - intros ->. rewrite drop_None_lookup. through.
    destruct (DosRester.orbital a);
      by rewrite ?lookup_insert_ne, ?lookup_empty by done.
  - intros k v [Hv Hk]%drop_None_not_None. split; [exact Hv|].
    apply elem_of_dom_2 in Hk.
    apply (elem_of_list_to_set (C := gset string)).
    eapply elem_of_weaken; [exact Hk|].
    unfold DosRester.keywords. dom_chain.
    destruct (DosRester.orbital a), (DosRester.element a);
      rewrite ?dom_insert_L, dom_empty_L; set_solver.
Qed.

End DosSearchFacts.

(** ** The query operators *)

Section OperatorFacts.

Import QueryOperators.

(** X7. [HasPropsQuery.query]: no parameter, or an empty one, gives empty
    criteria; otherwise the criteria ask for all the pieces between the
    commas of the parameter.  No piece contains a comma, and joined by
    commas the pieces are the parameter again, so empty pieces (as in
    ["a,,b"]) are kept as property names. *)
Theorem has_props_query (has_props : option string) :
  (has_props = None \/ has_props = Some "" ->
   HasPropsQuery_query has_props = PDict {[ "criteria" := PDict ∅ ]}) /\
  (forall s, has_props = Some s -> s <> "" ->
     exists parts,
       HasPropsQuery_query has_props =
         PDict {[ "criteria" :=
           PDict {[ "has_props" :=
             PDict {[ "$all" := PList (PStr <$> parts) ]} ]} ]} /\
       str_join "," parts = s /\
       Forall (fun x => ~ has_char "," x) parts).
Proof.
  split.
  - by intros [-> | ->].
  - intros s -> Hs. exists (str_split "," s).
    split; [|split; [apply str_join_split|apply str_split_pieces]].
    unfold HasPropsQuery_query. by destruct s.
Qed.

(** X8. [MaterialIDsSearchQuery.query] undoes a comma join: for a list of
    ids without commas whose join is not empty, the criteria on the
    joined parameter are [material_id] in exactly that list. *)
Theorem material_ids_query_of_join (ids : list string) :
  ids <> [] ->
  Forall (fun x => ~ has_char "," x) ids ->
  str_join "," ids <> "" ->
  MaterialIDsSearchQuery_query (Some (str_join "," ids)) =
    PDict {[ "criteria" :=
      PDict {[ "material_id" := PDict {[ "$in" := PList (PStr <$> ids) ]} ]} ]}.
Proof.
  intros Hids Hcommas Hjoin. unfold MaterialIDsSearchQuery_query.
  rewrite (str_split_join "," ids Hids Hcommas).
  unfold dict_update. rewrite (right_id_L ∅ (∪)).
  destruct (str_join "," ids); [done|reflexivity].
Qed.

(** X9. In the [query] of [SearchStatsQuery] a falsy parameter is no
    parameter: a [min_val] or [max_val] of 0 gives the pipeline of no
    bound, and a [num_samples] of 0 the pipeline of no sampling. *)
Theorem stats_query_ignores_falsy (self : SearchStatsQuery) (field : string)
    (num_samples min_val max_val num_points : pyval) :
  (truthy min_val = false ->
   snd (SearchStatsQuery_query self field num_samples min_val max_val num_points)
   = snd (SearchStatsQuery_query self field num_samples PNone max_val num_points)) /\
  (truthy max_val = false ->
   snd (SearchStatsQuery_query self field num_samples min_val max_val num_points)
   = snd (SearchStatsQuery_query self field num_samples min_val PNone num_points)) /\
  (truthy num_samples = false ->
   snd (SearchStatsQuery_query self field num_samples min_val max_val num_points)
   = snd (SearchStatsQuery_query self field PNone min_val max_val num_points)).
Proof.
  unfold SearchStatsQuery_query. cbn [snd truthy].
  split; [|split]; intros ->; rewrite ?orb_false_r; reflexivity.
Qed.

(** X10. The pipeline of [SearchStatsQuery] never matches vacuously: a
    [$match] stage in it constrains the field by at least one of [$gte]
    and [$lte], each with the truthy bound that was passed; and its last
    stage is the projection on the field. *)
Theorem stats_query_match_stage (self : SearchStatsQuery) (field : string)
    (num_samples min_val max_val num_points : pyval) :
  let pipeline :=
    stages (snd (SearchStatsQuery_query self field num_samples
                   min_val max_val num_points)) in
  (forall stage condition,
      In (PDict stage) pipeline ->
      stage !! "$match" = Some condition ->
      exists bounds,
        condition = PDict {[ field := PDict bounds ]} /\
        bounds <> ∅ /\
        (forall op v, bounds !! op = Some v ->
           truthy v = true /\
           (op = "$gte" /\ v = min_val \/ op = "$lte" /\ v = max_val))) /\
  last pipeline =
    Some (PDict {[ "$project" :=
                     PDict (<[ "_id" := PInt 0 ]> {[ field := PInt 1 ]}) ]}).
Proof.
  unfold SearchStatsQuery_query, stages. cbn [snd].
  rewrite lookup_singleton_eq. split; [|by rewrite last_snoc].
  intros stage condition Hin Hmatch.
  assert (Hother : forall (name : string) (x : pyval),
             name <> "$match" -> PDict stage <> PDict {[ name := x ]}).
  { intros name x Hname [= ->]. by rewrite lookup_singleton_ne in Hmatch. }
  apply in_app_or in Hin as [Hin|[Hin|[]]];
    [|symmetry in Hin; by apply Hother in Hin].
  assert (Hstage : In (PDict stage)
            (if truthy min_val || truthy max_val then
               [PDict {[ "$match" := PDict {[ field := PDict
                  (let bounds : gmap string pyval := ∅ in
                   let bounds := if truthy min_val
                                 then <[ "$gte" := min_val ]> bounds
                                 else bounds in
                   if truthy max_val then <[ "$lte" := max_val ]> bounds
                   else bounds) ]} ]}]
             else [])).
  { destruct (truthy num_samples); [|exact Hin].
    apply in_app_or in Hin as [Hin|[Hin|[]]]; [exact Hin|].
    symmetry in Hin. by apply Hother in Hin. }
  clear Hin. cbv zeta in Hstage.
  destruct (truthy min_val) eqn:Hmin, (truthy max_val) eqn:Hmax;
    cbn [orb In] in Hstage; [ | | |done]; destruct Hstage as [[= <-]|[]];
    rewrite lookup_singleton_eq in Hmatch; injection Hmatch as <-;
    eexists; (split; [reflexivity|]); (split; [apply insert_non_empty|]);
    intros op v Hop.
  - apply lookup_insert_Some in Hop as [[<- <-]|[_ Hop]]; [by auto|].
    apply lookup_insert_Some in Hop as [[<- <-]|[_ Hop]]; [by auto|].
    by rewrite lookup_empty in Hop.
  - apply lookup_insert_Some in Hop as [[<- <-]|[_ Hop]]; [by auto|].
    by rewrite lookup_empty in Hop.
  - apply lookup_insert_Some in Hop as [[<- <-]|[_ Hop]]; [by auto|].
    by rewrite lookup_empty in Hop.
Qed.

Lemma numeric_fields_elem_of (fields : list (string * py_type))
    (name : string) :
  name ∈ numeric_fields fields <-> (name, TFloat) ∈ fields.
Proof.
  unfold numeric_fields. rewrite merge_sort_Permutation.
  rewrite list_elem_of_fmap. split.
  - intros ([k t] & -> & [Hfloat Hin]%list_elem_of_filter).
    simpl in *. by destruct t.
  - intros Hin. exists (name, TFloat). split; [reflexivity|].
    by apply list_elem_of_filter.
Qed.

(** X11. [SearchStatsQuery.__init__]: the numeric fields are the names of
    the fields of type [float], in ascending order; the default of the
    [field] parameter is the least of them; and a search document without
    a [float] field makes the constructor raise [IndexError]. *)
Theorem stats_init_numeric_fields (fields : list (string * py_type)) :
  let names := numeric_fields fields in
  StronglySorted String.le names /\
  (forall name, name ∈ names <-> (name, TFloat) ∈ fields) /\
  ((forall name, (name, TFloat) ∉ fields) ->
   SearchStatsQuery_init fields = Raise (IndexError "tuple index out of range")) /\
  (forall self, SearchStatsQuery_init fields = Return self ->
     valid_numeric_fields self = names /\
     attrs self = None /\
     (default_field self, TFloat) ∈ fields /\
     (forall name, (name, TFloat) ∈ fields ->
        String.le (default_field self) name)).
Proof.
  cbv zeta.
  assert (Hsorted : StronglySorted String.le (numeric_fields fields))
    by apply (StronglySorted_merge_sort _).
  split; [exact Hsorted|]. split; [apply numeric_fields_elem_of|].
  unfold SearchStatsQuery_init. cbv zeta. split.
  - intros Hnone. destruct (numeric_fields fields) as [|name names] eqn:Hn;
      [reflexivity|].
    destruct (Hnone name). apply numeric_fields_elem_of. rewrite Hn. by left.
  - intros self. destruct (numeric_fields fields) as [|first names] eqn:Hn;
      [discriminate|].
    cbn. intros [= <-]. cbn. split; [reflexivity|]. split; [reflexivity|].
    split.
    + apply numeric_fields_elem_of. rewrite Hn. by left.
    + intros name Hname%numeric_fields_elem_of. rewrite Hn in Hname.
      apply StronglySorted_cons in Hsorted as [Hfirst _].
      apply elem_of_cons in Hname as [->|Hname]; [reflexivity|].
      by apply (proj1 (Forall_forall _ _) Hfirst).
Qed.

Section PostProcess.

Context {Stats : Type} `{numerics : !Numerics Stats}.

(** X12. [post_process] fails with [UnboundLocalError] on an empty
    result and on nothing else.  On no documents it reads [response]
    before any assignment, whatever the operator's state; on one
    document or more, whatever the documents, the operator's state and
    the numerical libraries do, it returns a single [SearchStats], or
    fails with the exception of a lookup or library call, or with the
    [AttributeError] of an operator that has not been queried. *)
Theorem post_process_empty (self : SearchStatsQuery)
    (docs : list (list (string * pyval))) (name : string) :
  (SearchStatsQuery_post_process (Stats := Stats) self docs
   = Raise (UnboundLocalError name) <->
   docs = [] /\ name = "response") /\
  (forall d rest,
      docs = d :: rest ->
      (exists response,
          SearchStatsQuery_post_process self docs = Return [response]) \/
      (exists e,
          SearchStatsQuery_post_process (Stats := Stats) self docs
          = Raise (Raised e)) \/
      (attrs self = None /\
       SearchStatsQuery_post_process (Stats := Stats) self docs
       = Raise (AttributeError
                  "'SearchStatsQuery' object has no attribute 'num_points'"))).
Proof.
  split; [split; [|by intros [-> ->]]|intros d rest ->];
    unfold SearchStatsQuery_post_process.
  - destruct docs as [|[|[field v] first] rest]; [by intros [= <-]|done|].
    destruct (attrs self) as [stored|]; [|done].
    unfold mbind, operator_bind, raised. intros Hraise.
    repeat case_match; simplify_eq.
  - destruct d as [|[field v] first]; [by eauto|].
    destruct (attrs self) as [stored|]; [|by eauto].
    unfold mbind, operator_bind, raised.
    repeat case_match; simplify_eq; eauto.
Qed.

(** X13. [post_process] relies on a [query] having run: on a freshly
    built operator, with documents whose first has a key, it raises
    [AttributeError], for [__init__] sets none of the attributes. *)
Theorem post_process_before_query (fields : list (string * py_type))
    (self : SearchStatsQuery) (field : string) (v : pyval)
    (first : list (string * pyval)) (docs : list (list (string * pyval))) :
  SearchStatsQuery_init fields = Return self ->
  SearchStatsQuery_post_process (Stats := Stats) self
    (((field, v) :: first) :: docs)
  = Raise (AttributeError
             "'SearchStatsQuery' object has no attribute 'num_points'").
Proof.
  intros Hinit.
  destruct (stats_init_numeric_fields fields) as (_ & _ & _ & Hself).
  destruct (Hself self Hinit) as (_ & Hattrs & _).
  unfold SearchStatsQuery_post_process. by rewrite Hattrs.
Qed.

(** X14. What a successful [post_process] returns: one [SearchStats],
    for the first key of the first document, with [num_samples] the
    number of documents.  Its [min] is the stored [min_val] when that is
    truthy and the least value otherwise, and likewise its [max]; every
    document has the field. *)
Theorem post_process_result (self : SearchStatsQuery)
    (docs : list (list (string * pyval))) (result : list Stats) :
  SearchStatsQuery_post_process self docs = Return result ->
  exists field v first rest stored values lo hi distribution median mean
         response,
    docs = ((field, v) :: first) :: rest /\
    attrs self = Some stored /\
    field_values docs field = Return values /\
    length values = length docs /\
    (if truthy (min_val stored) then lo = min_val stored
     else py_min values = Return lo) /\
    (if truthy (max_val stored) then hi = max_val stored
     else py_max values = Return hi) /\
    kde_distribution values lo hi (num_points stored) = Return distribution /\
    np_median values = Return median /\
    np_mean values = Return mean /\
    SearchStats field (Z.of_nat (length docs)) lo hi distribution median mean
      = Return response /\
    result = [response].
Proof.
  unfold SearchStatsQuery_post_process.
  destruct docs as [|[|[field v] first] rest]; [done|done|].
  destruct (attrs self) as [stored|]; [|done].
  set (docs := ((field, v) :: first) :: rest).
  unfold mbind, operator_bind, raised.
  destruct (field_values docs field) as [e|values] eqn:Hvalues; [done|].
  assert (Hlen : length values = length docs).
  { clear -Hvalues. revert values Hvalues.
    induction docs as [|d docs IH]; intros values; simpl.
    - by intros [= <-].
    - destruct (doc_getitem d field); [done|].
      destruct (field_values docs field) as [e|vs]; [done|].
      intros [= <-]. simpl. by rewrite (IH vs). }
  destruct (truthy (min_val stored)) eqn:Hmin; cbn [negb];
    [|destruct (py_min values) as [e|lo] eqn:Hlo; [done|]];
    (destruct (truthy (max_val stored)) eqn:Hmax; cbn [negb];
     [|destruct (py_max values) as [e|hi] eqn:Hhi; [done|]]).
  all: destruct (kde_distribution values _ _ _) as [e|dist] eqn:Hdist;
    [done|];
    destruct (np_median values) as [e|median] eqn:Hmedian; [done|];
    destruct (np_mean values) as [e|mean] eqn:Hmean; [done|];
    destruct (SearchStats _ _ _ _ _ _ _) as [e|response] eqn:Hresp; [done|];
    intros [= <-];
    eexists field, v, first, rest, stored, values, _, _, dist, median, mean,
      response;
    rewrite ?Hmin, ?Hmax; repeat (split; [try done; eassumption|]);
    reflexivity.
Qed.

(** X15. For [post_process] a stored bound of 0 is no bound: with a falsy
    [min_val] or [max_val] on the operator it answers as it does with
    [None] there, taking the bound from the data. *)
Theorem post_process_ignores_falsy (self : SearchStatsQuery)
    (field : string) (samples lo hi points : pyval)
    (docs : list (list (string * pyval))) :
  let after lo hi :=
    fst (SearchStatsQuery_query self field samples lo hi points) in
  (truthy lo = false ->
   SearchStatsQuery_post_process (Stats := Stats) (after lo hi) docs =
   SearchStatsQuery_post_process (after PNone hi) docs) /\
  (truthy hi = false ->
   SearchStatsQuery_post_process (Stats := Stats) (after lo hi) docs =
   SearchStatsQuery_post_process (after lo PNone) docs).
Proof.
  cbv zeta. unfold SearchStatsQuery_post_process, SearchStatsQuery_query.
  cbn [fst attrs min_val max_val num_points].
  split; intros Hfalsy; destruct docs as [|[|[f v] first] rest];
    try reflexivity; rewrite Hfalsy; reflexivity.
Qed.

End PostProcess.

End OperatorFacts.

(** ** More on retrieval *)

Section Retrieval.

Context {PyObject BSPathType : Type}.
Context `{transport : !Transport, codec : !Codec PyObject,
          path_types : !PathType BSPathType}.

(** X16. Without [line_mode] the path type plays no part:
    [get_bandstructure_from_material_id] sends the same requests and has
    the same outcome for every [path_type]. *)
Theorem uniform_mode_ignores_path_type (mid : string) (pt pt' : BSPathType) :
  get_bandstructure_from_material_id mid pt false =
  get_bandstructure_from_material_id mid pt' false.
Proof. by rewrite !get_bandstructure_from_material_id_run. Qed.

(** X17. Failures of the REST layer pass through unchanged.  When the
    document request raises, both [..._from_material_id] methods raise
    the same exception and send nothing else; when the object query
    raises, the [..._from_task_id] methods raise the same exception, and
    so do the [..._from_material_id] methods that resolved the task. *)
Theorem transport_errors_pass_through (e : exn) :
  (forall mid (pt : BSPathType) (lm : bool),
      get_data_by_id_response mid [if lm then "bandstructure" else "dos"]
        = Raise e ->
      get_bandstructure_from_material_id mid pt lm =
        ([EvGetDataById mid [if lm then "bandstructure" else "dos"]],
         Raise e)) /\
  (forall mid,
      get_data_by_id_response mid ["dos"] = Raise e ->
      get_dos_from_material_id (PyObject := PyObject) mid =
        ([EvGetDataById mid ["dos"]], Raise e)) /\
  (forall task,
      query_resource_response
        {[ "task_id" := task; "_all_fields" := PBool true ]}
        "object" false 1 1 = Raise e ->
      get_bandstructure_from_task_id task = ([object_query task], Raise e) /\
      get_dos_from_task_id task = ([object_query task], Raise e) /\
      (forall mid (pt : BSPathType) lm,
          outcome (resolve_bandstructure_task mid pt lm) = Return task ->
          outcome (get_bandstructure_from_material_id mid pt lm) = Raise e) /\
      (forall mid,
          outcome (resolve_dos_task mid) = Return task ->
          outcome (get_dos_from_material_id (PyObject := PyObject) mid)
            = Raise e)).
Proof.
  split; [|split].
  - intros mid pt lm Hdoc. rewrite get_bandstructure_from_material_id_run.
    unfold resolve_bandstructure_task, get_data_by_id.
    destruct lm; by rewrite Hdoc.
  - intros mid Hdoc. rewrite get_dos_from_material_id_run.
    unfold resolve_dos_task, get_data_by_id. by rewrite Hdoc.
  - intros task Hquery.
    assert (Hfetched : fetched task = Raise e)
      by (unfold fetched; by rewrite Hquery).
    rewrite get_dos_from_task_id_run, get_bandstructure_from_task_id_run.
    rewrite Hfetched. split; [reflexivity|]. split; [reflexivity|]. split.
    + intros mid pt lm Hres. rewrite get_bandstructure_from_material_id_run.
      by rewrite Hres, Hfetched.
    + intros mid Hres. rewrite get_dos_from_material_id_run.
      by rewrite Hres, Hfetched.
Qed.

(** X18. A retrieval sends the document request first and at most one
    object query after it; the object query is sent exactly when the
    task identifier was found, and is for that identifier. *)
Theorem retrieval_requests (mid : string) (pt : BSPathType) (lm : bool) :
  requests (get_bandstructure_from_material_id mid pt lm) =
    EvGetDataById mid [if lm then "bandstructure" else "dos"] ::
    match outcome (resolve_bandstructure_task mid pt lm) with
    | Return task => [object_query task]
    | Raise _ => []
    end /\
  requests (get_dos_from_material_id (PyObject := PyObject) mid) =
    EvGetDataById mid ["dos"] ::
    match outcome (resolve_dos_task mid) with
    | Return task => [object_query task]
    | Raise _ => []
    end.
Proof.
  rewrite get_bandstructure_from_material_id_run, get_dos_from_material_id_run.
  pose proof (resolve_bandstructure_task_requests mid pt lm) as Hbs.
  pose proof (resolve_dos_task_requests mid) as Hdos.
  destruct (resolve_bandstructure_task mid pt lm) as [t1 [e1|task1]],
           (resolve_dos_task mid) as [t2 [e2|task2]];
    unfold requests, outcome in *; simpl in *; by subst.
Qed.

(** X19. The same malformed document fails differently in the two
    methods: on a [dos] that has entries but no [total],
    [get_dos_from_material_id] raises [KeyError('total')], while
    [get_bandstructure_from_material_id] without [line_mode] raises the
    "No uniform band structure data" error. *)
Theorem dos_without_total (mid : string) (pt : BSPathType) doc
    (d : gmap string pyval) :
  get_data_by_id_response mid ["dos"] = Return doc ->
  dos doc = Some d ->
  d <> ∅ ->
  d !! "total" = None ->
  get_dos_from_material_id (PyObject := PyObject) mid =
    ([EvGetDataById mid ["dos"]], Raise (KeyError (KStr "total"))) /\
  get_bandstructure_from_material_id mid pt false =
    ([EvGetDataById mid ["dos"]],
     Raise (MPRestError ("No uniform band structure data found for " +:+ mid))).
Proof.
  intros Hdoc Hdos Hne Htotal. split.
  - rewrite get_dos_from_material_id_run.
    unfold resolve_dos_task, get_data_by_id.
    rewrite Hdoc, bind_return. cbv zeta.
    rewrite bind_lift. unfold doc_dict. simpl py_getitem.
    rewrite lookup_insert_ne by done. rewrite lookup_singleton_eq.
    rewrite Hdos. simpl opt_dict.
    assert (truthy (PDict d) = true) as ->.
    { simpl. apply negb_true_iff, bool_decide_eq_false.
      by intros ?%map_size_empty_iff. }
    rewrite bind_lift. simpl py_getitem. by rewrite Htotal.
  - rewrite get_bandstructure_from_material_id_run.
    rewrite (resolve_uniform_falsy _ _ _ Hdoc); [reflexivity|].
    rewrite Hdos. unfold dict_get. by rewrite Htotal.
Qed.

(** X20. A fetched object of the wrong shape is refused, not decoded: a
    non-empty mapping in place of the array raises [KeyError(0)], and an
    array whose first element is not a string raises the [TypeError] of
    base64, naming the element's type. *)
Theorem wrong_shape_is_refused (mid : string) (pt : BSPathType) (lm : bool)
    (task obj : pyval) :
  outcome (resolve_bandstructure_task mid pt lm) = Return task ->
  fetched task = Return obj ->
  (forall d, obj = PDict d -> d <> ∅ ->
     outcome (get_bandstructure_from_material_id mid pt lm)
       = Raise (KeyError (KInt 0))) /\
  (forall first more, obj = PList (first :: more) ->
     (forall s, first <> PStr s) ->
     outcome (get_bandstructure_from_material_id mid pt lm)
       = Raise (TypeError
           ("argument should be a bytes-like object or ASCII string, not '"
            +:+ type_name first +:+ "'"))).
Proof.
  intros Hres Hobj. rewrite get_bandstructure_from_material_id_run.
  rewrite Hres, Hobj. unfold interpret. split.
  - intros d -> Hne.
    assert (truthy (PDict d) = true) as ->; [|reflexivity].
    simpl. apply negb_true_iff, bool_decide_eq_false.
    by intros ?%map_size_empty_iff.
  - intros first more -> Hfirst. cbn. unfold decode.
    destruct first; try reflexivity. by destruct (Hfirst s).
Qed.

End Retrieval.

(** ** The further statements on instances *)

Section MoreExamples.

Import DemoSearch QueryOperators.

#[local] Existing Instance Demo.path_types.

(** X1, on a call with an open band-gap range. *)
Lemma es_search_keywords_witness :
  ElectronicStructureRester.query_params es_call !! "band_gap_max"
    = Some (PInt 3) /\
  ElectronicStructureRester.query_params es_call !! "band_gap_min" = None /\
  PInt 3 <> PNone /\
  "band_gap_max" ∈ ElectronicStructureRester.keywords.
Proof.
  assert (Hmax : ElectronicStructureRester.query_params es_call
                   !! "band_gap_max" = Some (PInt 3))
    by (vm_compute; reflexivity).
  split; [exact Hmax|]. split; [vm_compute; reflexivity|].
  exact (es_search_keywords es_call "band_gap_max" (PInt 3) Hmax).
Defined.

(** X4, on the same call: the fields [" band_gap"] and ["-efermi  "]. *)
Lemma es_search_sort_fields_witness :
  exists joined,
    ElectronicStructureRester.query_params es_call !! "_sort_fields"
      = Some (PStr joined) /\
    str_split "," joined = ["band_gap"; "-efermi"].
Proof.
  destruct (es_search_sort_fields es_call " band_gap" ["-efermi  "])
    as (joined & Hq & Hsplit & _).
  - reflexivity.
  - repeat constructor; unfold has_char; cbn; intuition discriminate.
  - exists joined. split; [exact Hq|]. rewrite Hsplit. reflexivity.
Defined.

(** X8, on two material ids. *)
Lemma material_ids_query_of_join_witness :
  MaterialIDsSearchQuery_query (Some "mp-149,mp-13") =
    PDict {[ "criteria" :=
      PDict {[ "material_id" :=
        PDict {[ "$in" := PList [PStr "mp-149"; PStr "mp-13"] ]} ]} ]}.
Proof.
  apply (material_ids_query_of_join ["mp-149"; "mp-13"]).
  - discriminate.
  - repeat constructor; unfold has_char; cbn; intuition discriminate.
  - discriminate.
Defined.

(** X13, on the operator built for a search document with the numeric
    fields [band_gap] and [efermi]. *)
Lemma post_process_before_query_witness :
  exists self,
    SearchStatsQuery_init search_doc_fields = Return self /\
    valid_numeric_fields self = ["band_gap"; "efermi"] /\
    SearchStatsQuery_post_process (Stats := Stats) self
      [[("band_gap", PInt 2)]]
    = Raise (AttributeError
               "'SearchStatsQuery' object has no attribute 'num_points'").
Proof.
  eexists. split; [vm_compute; reflexivity|]. split; [reflexivity|].
  apply (post_process_before_query search_doc_fields). vm_compute. reflexivity.
Defined.

(** X12, on one document and an operator that has not been queried:
    the outcome is one of the three that a result with documents has. *)
Lemma post_process_empty_witness :
  let self :=
    {| valid_numeric_fields := ["band_gap"; "efermi"];
       default_field := "band_gap"; attrs := None |} in
  let docs := [[("band_gap", PInt 2)]] in
  (exists response,
      SearchStatsQuery_post_process (Stats := Stats) self docs
      = Return [response]) \/
  (exists e,
      SearchStatsQuery_post_process (Stats := Stats) self docs
      = Raise (Raised e)) \/
  (attrs self = None /\
   SearchStatsQuery_post_process (Stats := Stats) self docs
   = Raise (AttributeError
              "'SearchStatsQuery' object has no attribute 'num_points'")).
Proof.
  cbv zeta.
  exact (proj2 (post_process_empty (Stats := Stats)
                  {| valid_numeric_fields := ["band_gap"; "efermi"];
                     default_field := "band_gap"; attrs := None |}
                  [[("band_gap", PInt 2)]] "response")
           [("band_gap", PInt 2)] [] eq_refl).
Defined.

(** X14, on three documents, after a [query] with a lower bound of 0 and
    an upper bound of 9: the lower bound reported is the least value. *)
Lemma post_process_result_witness :
  let self :=
    {| valid_numeric_fields := ["band_gap"; "efermi"];
       default_field := "band_gap"; attrs := None |} in
  let docs := [[("band_gap", PInt 4)]; [("band_gap", PInt 2)];
               [("band_gap", PInt 7)]] in
  let self' :=
    fst (SearchStatsQuery_query self "band_gap" PNone (PInt 0) (PInt 9)
           (PInt 5)) in
  exists response,
    SearchStatsQuery_post_process self' docs = Return [response] /\
    stats_min response = PInt 2 /\ stats_max response = PInt 9 /\
    stats_num_samples response = 3 /\
    exists values, field_values docs "band_gap" = Return values /\
                   length values = 3%nat.
Proof.
  cbv zeta.
  set (self' := fst (SearchStatsQuery_query _ _ _ _ _ _)).
  set (docs := [_; _; _]).
  pose (r := {| stats_field := "band_gap"; stats_num_samples := 3;
                stats_min := PInt 2; stats_max := PInt 9;
                stats_distribution := repeat (PInt 0) 5;
                stats_median := PInt 2; stats_mean := PInt 7 |}).
  assert (Hrun : SearchStatsQuery_post_process self' docs = Return [r])
    by (vm_compute; reflexivity).
  exists r. split; [exact Hrun|].
  split; [reflexivity|]. split; [reflexivity|]. split; [reflexivity|].
  destruct (post_process_result self' docs [r] Hrun) as
    (field & v & first & rest & stored & values & lo & hi & dist & median &
     mean & response & Hdocs & _ & Hvalues & Hlen & _).
  injection Hdocs as <- _ _ _. exists values. split; [exact Hvalues|exact Hlen].
Defined.

(** X19, on the store of odd documents: "mp-nototal" has a [dos] with an
    [elemental] entry only. *)
Lemma dos_without_total_witness :
  get_dos_from_material_id (transport := odd_store)
    (codec := Demo.codec) "mp-nototal" =
    ([EvGetDataById "mp-nototal" ["dos"]], Raise (KeyError (KStr "total"))) /\
  get_bandstructure_from_material_id (transport := odd_store)
    (codec := Demo.codec) (path_types := Demo.path_types)
    "mp-nototal" Demo.hinuma false =
    ([EvGetDataById "mp-nototal" ["dos"]],
     Raise (MPRestError
              "No uniform band structure data found for mp-nototal")).
Proof.
  refine (dos_without_total (transport := odd_store)
            (PyObject := Demo.PyObject) (codec := Demo.codec)
            (path_types := Demo.path_types) "mp-nototal" Demo.hinuma
            {| bandstructure := None;
               dos := Some {[ "elemental" := PDict ∅ ]} |}
            {[ "elemental" := PDict ∅ ]} _ _ _ _);
    [reflexivity|reflexivity|apply insert_non_empty|reflexivity].
Defined.

(** X20, on the store of odd documents: the object of task "mp-7" is a
    mapping, that of task "mp-8" an array holding a number. *)
Lemma wrong_shape_is_refused_witness :
  outcome (get_bandstructure_from_material_id (transport := odd_store)
             (codec := Demo.codec) (path_types := Demo.path_types)
             "mp-shape" Demo.setyawan_curtarolo true)
    = Raise (KeyError (KInt 0)) /\
  outcome (get_bandstructure_from_material_id (transport := odd_store)
             (codec := Demo.codec) (path_types := Demo.path_types)
             "mp-shape" Demo.setyawan_curtarolo false)
    = Raise (TypeError
        "argument should be a bytes-like object or ASCII string, not 'int'").
Proof.
  split.
  - refine (proj1 (wrong_shape_is_refused (transport := odd_store)
      (PyObject := Demo.PyObject) (codec := Demo.codec)
      (path_types := Demo.path_types) "mp-shape" Demo.setyawan_curtarolo true
      (PStr "mp-7") (PDict {[ "x" := PInt 1 ]}) _ _)
      {[ "x" := PInt 1 ]} _ _);
      [reflexivity|reflexivity|reflexivity|apply insert_non_empty].
  - refine (proj2 (wrong_shape_is_refused (transport := odd_store)
      (PyObject := Demo.PyObject) (codec := Demo.codec)
      (path_types := Demo.path_types) "mp-shape" Demo.setyawan_curtarolo false
      (PStr "mp-8") (PList [PInt 123]) _ _)
      (PInt 123) [] _ _);
      [reflexivity|reflexivity|reflexivity|discriminate].
Defined.

(** X2, on the formula "Fe2O3". *)
Lemma es_search_formula_forms_witness :
  ElectronicStructureRester.query_params
    (ElectronicStructureRester.with_formula (Some (inl "Fe2O3")) es_call) =
  ElectronicStructureRester.query_params
    (ElectronicStructureRester.with_formula (Some (inr ["Fe2O3"])) es_call).
Proof.
  apply (proj1 (es_search_formula_forms es_call)). discriminate.
Defined.

(** X3, on the call with [band_gap = (None, 3)] and no [efermi]. *)
Lemma es_search_ranges_witness :
  ElectronicStructureRester.query_params es_call !! "band_gap_min" = None /\
  ElectronicStructureRester.query_params es_call !! "band_gap_max"
    = Some (PInt 3) /\
  ElectronicStructureRester.query_params es_call !! "efermi_min" = None.
Proof.
  destruct (es_search_ranges es_call) as (Hmin & Hmax & Hefermi & _).
  rewrite Hmin, Hmax, Hefermi. repeat split.
Defined.

(** X5, on a call for the path type [hinuma]. *)
Lemma bs_search_keywords_witness :
  BandStructureRester.query_params bs_call !! "path_type"
    = Some (PStr "hinuma") /\
  (PBool false <> PNone /\ "is_metal" ∈ BandStructureRester.keywords).
Proof.
  destruct (bs_search_keywords (path_types := Demo.path_types) bs_call)
    as [Hpath Hall].
  split; [exact Hpath|].
  apply (Hall "is_metal" (PBool false)). vm_compute. reflexivity.
Defined.

(** X6, on a call for the orbital [s], whose value is 0. *)
Lemma dos_search_keywords_witness :
  DosRester.query_params dos_call !! "orbital" = Some (PInt 0) /\
  DosRester.query_params dos_call !! "spin" = Some (PInt (-1)) /\
  DosRester.query_params dos_call !! "projection_type"
    = Some (PStr "orbital") /\
  DosRester.query_params dos_call !! "element" = None.
Proof.
  destruct (dos_search_keywords dos_call)
    as (Hprojection & Hspin & Horbital & _ & _ & Helement & _).
  split; [apply (Horbital orbital_s); [reflexivity|discriminate]|].
  split; [apply Hspin; discriminate|].
  split; [apply Hprojection; discriminate|].
  apply Helement. reflexivity.
Defined.

(** X7, on a parameter with an empty piece. *)
Lemma has_props_query_witness :
  exists parts,
    HasPropsQuery_query (Some "dos,,xas") =
      PDict {[ "criteria" :=
        PDict {[ "has_props" :=
          PDict {[ "$all" := PList (PStr <$> parts) ]} ]} ]} /\
    str_join "," parts = "dos,,xas".
Proof.
  destruct (proj2 (has_props_query (Some "dos,,xas")) "dos,,xas")
    as (parts & Hquery & Hjoin & _); [reflexivity|discriminate|].
  exists parts. split; assumption.
Defined.

(** X11, on the search document with the numeric fields [efermi] and
    [band_gap]. *)
Lemma stats_init_numeric_fields_witness :
  exists self,
    SearchStatsQuery_init search_doc_fields = Return self /\
    valid_numeric_fields self = numeric_fields search_doc_fields /\
    String.le (default_field self) "efermi".
Proof.
  assert (Hinit : SearchStatsQuery_init search_doc_fields =
                  Return {| valid_numeric_fields := ["band_gap"; "efermi"];
                            default_field := "band_gap"; attrs := None |})
    by (vm_compute; reflexivity).
  eexists. split; [exact Hinit|].
  destruct (stats_init_numeric_fields search_doc_fields)
    as (_ & _ & _ & Hself).
  destruct (Hself _ Hinit) as (Hnames & _ & _ & Hleast).
  split; [exact Hnames|]. apply Hleast.
  unfold search_doc_fields. set_solver.
Defined.

(** X17, on the in-memory store, which knows no material "mp-0". *)
Lemma transport_errors_pass_through_witness :
  get_dos_from_material_id (transport := Demo.transport)
    (codec := Demo.codec) "mp-0" =
    ([EvGetDataById "mp-0" ["dos"]],
     Raise (MPRestError "No result for record mp-0")) /\
  get_bandstructure_from_material_id (transport := Demo.transport)
    (codec := Demo.codec) (path_types := Demo.path_types)
    "mp-0" Demo.hinuma true =
    ([EvGetDataById "mp-0" ["bandstructure"]],
     Raise (MPRestError "No result for record mp-0")).
Proof.
  destruct (transport_errors_pass_through (transport := Demo.transport)
              (codec := Demo.codec) (path_types := Demo.path_types)
              (MPRestError "No result for record mp-0"))
    as (Hbs & Hdos & _).
  split.
  - apply Hdos. reflexivity.
  - apply (Hbs "mp-0" Demo.hinuma true). reflexivity.
Defined.

End MoreExamples.
